(** * askem: retriever query builder and model wrappers

    A shallow embedding of [askem/retriever/base.py] and [backend.py].

    Both files are glue code around external services (a Weaviate vector
    database, the OpenAI chat-completion API, HuggingFace models).  Every
    external call is an event of a small free monad [prog]; the Python
    values that travel through the code (JSON objects, strings, lists) are
    an explicit datatype [value]; exceptions are the [Raise] leaves of a
    program.  Calls to [logging] write to the log and take no part in what
    is sent or returned: they are left out.  [get_client], [_mean_pooling],
    [to_embeddings] and [_mt0] only pass their arguments on to weaviate,
    transformers and torch and are not modelled. *)

From Stdlib Require Import ZArith Ascii String Floats.SpecFloat.
From stdpp Require Import base option list strings.

Set Warnings "-register-all".

Open Scope string_scope.
Open Scope list_scope.

(** ** Python values, exceptions, programs *)

Module Py.

(** Python objects as they occur in the JSON payloads and responses.  A
    [dict] is an association list in insertion order with unique keys. *)
Inductive value : Type :=
| VNone
| VBool (b : bool)
| VInt (z : Z)
| VFloat (f : spec_float)
| VStr (s : string)
| VList (l : list value)
| VDict (d : list (string * value)).

Definition dict : Type := list (string * value).

(** [k in d] and [d.get(k)]. *)
Fixpoint dict_get (d : dict) (k : string) : option value :=
  match d with
  | [] => None
  | (k', v) :: d' => if String.eqb k' k then Some v else dict_get d' k
  end.

Definition dict_in (k : string) (d : dict) : bool :=
  match dict_get d k with Some _ => true | None => false end.

(** [d[k] = v]: replaces the value of an existing key in place, appends a
    new key at the end. *)
Fixpoint dict_set (d : dict) (k : string) (v : value) : dict :=
  match d with
  | [] => [(k, v)]
  | (k', v') :: d' =>
      if String.eqb k' k then (k', v) :: d' else (k', v') :: dict_set d' k v
  end.

Definition keys (d : dict) : list string := map fst d.

(** The detail carried by an [HTTPException]: an object, or the f-string
    [f"{prefix}{obj}"] kept unrendered. *)
Inductive detail : Type :=
| Detail (v : value)
| FString (prefix : string) (v : value).

Inductive exn : Type :=
| HTTPException (status_code : Z) (d : detail)
| KeyError (key : string)
| IndexError
| TypeError
| ValueError (msg : string)
| RuntimeError.

Definition result (A : Type) : Type := exn + A.

(** [v[k]] for a string subscript. *)
Definition getitem (v : value) (k : string) : result value :=
  match v with
  | VDict d =>
      match dict_get d k with
      | Some x => inr x
      | None => inl (KeyError k)
      end
  | _ => inl TypeError
  end.

(** [bool(v)]. *)
Definition truthy (v : value) : bool :=
  match v with
  | VNone => false
  | VBool b => b
  | VInt z => negb (Z.eqb z 0)
  | VFloat (S754_zero _) => false
  | VFloat _ => true
  | VStr s => negb (String.eqb s "")
  | VList l => match l with [] => false | _ => true end
  | VDict d => match d with [] => false | _ => true end
  end.

Fixpoint chars (s : string) : list value :=
  match s with
  | EmptyString => []
  | String c s' => VStr (String c EmptyString) :: chars s'
  end.

(** The elements [for x in v] runs through. *)
Definition iter (v : value) : result (list value) :=
  match v with
  | VList l => inr l
  | VDict d => inr (map VStr (keys d))
  | VStr s => inr (chars s)
  | _ => inl TypeError
  end.

(** Programs over a family [E] of external calls: [E X] is a call that
    answers with an [X]. *)
Inductive prog (E : Type -> Type) (A : Type) : Type :=
| Ret (a : A)
| Raise (e : exn)
| Vis (X : Type) (c : E X) (k : X -> prog E A).

Arguments Ret {E A} a.
Arguments Raise {E A} e.
Arguments Vis {E A X} c k.

Fixpoint bind {E A B} (m : prog E A) (f : A -> prog E B) : prog E B :=
  match m with
  | Ret a => f a
  | Raise e => Raise e
  | Vis c k => Vis c (fun x => bind (k x) f)
  end.

Definition call {E X} (c : E X) : prog E X := Vis c Ret.

Definition lift {E A} (r : result A) : prog E A :=
  match r with
  | inl e => Raise e
  | inr a => Ret a
  end.

#[export] Instance prog_mret {E} : MRet (prog E) := fun A => @Ret E A.
#[export] Instance prog_mbind {E} : MBind (prog E) :=
  fun A B f m => bind m f.

(** [[f(x) for x in xs]], left to right. *)
Fixpoint for_each {E A B} (f : A -> prog E B) (xs : list A) : prog E (list B) :=
  match xs with
  | [] => Ret []
  | x :: xs' => y ← f x; ys ← for_each f xs'; Ret (y :: ys)
  end.

(** One external call as it was issued. *)
Definition issued (E : Type -> Type) : Type := { X : Type & E X }.

Section Run.
Context {E : Type -> Type}.

(** The outside world answers each call and may change while doing so. *)
Context {W : Type} (world : forall X, E X -> W -> X * W).

(** Runs a program against the world: the calls issued in order, the
    outcome, the world afterwards. *)
Fixpoint run {A} (p : prog E A) (w : W) : list (issued E) * result A * W :=
  match p with
  | Ret a => ([], inr a, w)
  | Raise e => ([], inl e, w)
  | Vis c k =>
      let '(x, w') := world _ c w in
      let '(tr, r, w'') := run (k x) w' in
      (existT _ c :: tr, r, w'')
  end.

Definition calls {A} (p : prog E A) (w : W) : list (issued E) :=
  fst (fst (run p w)).

Definition outcome {A} (p : prog E A) (w : W) : result A :=
  snd (fst (run p w)).
End Run.

Section Interp.
Context {E : Type -> Type}.

(** A service whose answer is a function of the request alone. *)
Context (service : forall X, E X -> X).

Fixpoint interp {A} (p : prog E A) : result A :=
  match p with
  | Ret a => inr a
  | Raise e => inl e
  | Vis c k => interp (k (service _ c))
  end.
End Interp.

End Py.

Import Py.

(** ** askem/retriever/base.py *)

Module Retriever.

(** Modelled from the spec: [data_models.Document] is imported by base.py
    and its declaration is not part of the sources.  The spec describes it
    as a plain data-transfer record of paper id, topic, object id, doc
    type, text and distance score; the field names are those of the
    keyword arguments [to_document] passes. *)
Record Document : Type := {
  paper_id : value;
  topic : value;
  cosmos_object_id : value;
  doc_type : value;
  text : value;
  distance : value
}.

(** The query object [client.query.get(...)] returns and its [with_*]
    methods extend: it records what each method was given.  The checks
    the weaviate client itself runs on these arguments are not part of
    base.py. *)
Record GetBuilder : Type := {
  class_name : string;
  properties : list string;
  additional : list string;
  where_filter : option value;
  near_text : option value;
  limit : option Z
}.

Definition query_get (cls : string) (props : list string) : GetBuilder :=
  {| class_name := cls; properties := props; additional := [];
     where_filter := None; near_text := None; limit := None |}.

Definition with_additional (q : GetBuilder) (props : list string) : GetBuilder :=
  {| class_name := class_name q; properties := properties q;
     additional := props; where_filter := where_filter q;
     near_text := near_text q; limit := limit q |}.

Definition with_where (q : GetBuilder) (w : value) : GetBuilder :=
  {| class_name := class_name q; properties := properties q;
     additional := additional q; where_filter := Some w;
     near_text := near_text q; limit := limit q |}.

Definition with_near_text (q : GetBuilder) (n : value) : GetBuilder :=
  {| class_name := class_name q; properties := properties q;
     additional := additional q; where_filter := where_filter q;
     near_text := Some n; limit := limit q |}.

Definition with_limit (q : GetBuilder) (n : Z) : GetBuilder :=
  {| class_name := class_name q; properties := properties q;
     additional := additional q; where_filter := where_filter q;
     near_text := near_text q; limit := Some n |}.

(** What base.py asks of the weaviate client. *)
Inductive ext : Type -> Type :=
| Do (q : GetBuilder) : ext dict
| CreateClass (schema : value) : ext unit.

Definition skip : value :=
  VDict [("text2vec-transformers", VDict [("skip", VBool true)])].

Definition get_schema (cls : string) : value :=
  VDict [
    ("class", VStr cls);
    ("description", VStr "Paragraph chunk of a document");
    ("vectorizer", VStr "text2vec-transformers");
    ("moduleConfig",
      VDict [("text2vec-transformers",
              VDict [("vectorizeClassName", VBool false)])]);
    ("vectorIndexConfig", VDict [("distance", VStr "dot")]);
    ("properties", VList [
      VDict [("name", VStr "paper_id");
             ("dataType", VList [VStr "text"]);
             ("moduleConfig", skip)];
      VDict [("name", VStr "preprocessor_id");
             ("dataType", VList [VStr "text"]);
             ("moduleConfig", skip)];
      VDict [("name", VStr "doc_type");
             ("dataType", VList [VStr "text"]);
             ("moduleConfig", skip)];
      VDict [("name", VStr "cosmos_object_id");
             ("dataType", VList [VStr "text"]);
             ("moduleConfig", skip)];
      VDict [("name", VStr "topic_list");
             ("dataType", VList [VStr "text[]"]);
             ("moduleConfig", skip)];
      VDict [("name", VStr "hashed_text");
             ("description", VStr "SHA256 hash of text_content");
             ("dataType", VList [VStr "text"]);
             ("moduleConfig", skip)];
      VDict [("name", VStr "text_content");
             ("dataType", VList [VStr "text"])]
    ])
  ].

Definition init_retriever : prog ext unit :=
  call (CreateClass (get_schema "Passage")).

(** The names a schema declares as properties. *)
Definition declared_properties (schema : value) : list value :=
  match getitem schema "properties" with
  | inr (VList ps) =>
      omap (fun p => match getitem p "name" with
                     | inr n => Some n
                     | inl _ => None
                     end) ps
  | _ => []
  end.

Definition to_document (result : value) : Py.result Document :=
  match getitem result "paper_id" with inl e => inl e | inr paper_id =>
  match getitem result "topic" with inl e => inl e | inr topic =>
  match getitem result "cosmos_object_id" with inl e => inl e | inr cosmos_object_id =>
  match getitem result "doc_type" with inl e => inl e | inr doc_type =>
  match getitem result "text_content" with inl e => inl e | inr text_content =>
  match getitem result "_additional" with inl e => inl e | inr additional =>
  match getitem additional "distance" with inl e => inl e | inr distance =>
    inr {| paper_id := paper_id; topic := topic;
           cosmos_object_id := cosmos_object_id; doc_type := doc_type;
           text := text_content; distance := distance |}
  end end end end end end end.

Definition output_fields : list string :=
  ["paper_id"; "cosmos_object_id"; "preprocessor_id"; "topic"; "doc_type";
   "text_content"].

(** [where_filter["operands"].append(clause)] *)
Definition operands_append (where_filter : dict) (clause : value) : dict :=
  match dict_get where_filter "operands" with
  | Some (VList ops) => dict_set where_filter "operands" (VList (ops ++ [clause]))
  | _ => where_filter
  end.

Definition opt_float (w : option spec_float) : value :=
  match w with
  | Some f => VFloat f
  | None => VNone
  end.

(** Lines 122-203 up to [.do()]: the query that is run. *)
Definition build_query
    (question : string) (top_k : Z) (distance : option spec_float)
    (topic doc_type preprocessor_id : option string)
    (paper_ids : option (list string))
    (move_to : option string) (move_to_weight : option spec_float)
    (move_away_from : option string) (move_away_from_weight : option spec_float)
  : GetBuilder :=
  let results := with_additional (query_get "Passage" output_fields) ["distance"] in
  let where_filter : dict := [("operator", VStr "And"); ("operands", VList [])] in
  let where_filter :=
    match topic with
    | Some topic =>
        operands_append where_filter
          (VDict [("path", VList [VStr "topic"]); ("operator", VStr "Equal");
                  ("valueText", VStr topic)])
    | None => where_filter
    end in
  let where_filter :=
    match doc_type with
    | Some doc_type =>
        operands_append where_filter
          (VDict [("path", VList [VStr "doc_type"]); ("operator", VStr "Equal");
                  ("valueText", VStr doc_type)])
    | None => where_filter
    end in
  let where_filter :=
    match preprocessor_id with
    | Some preprocessor_id =>
        operands_append where_filter
          (VDict [("path", VList [VStr "preprocessor_id"]);
                  ("operator", VStr "Equal");
                  ("valueText", VStr preprocessor_id)])
    | None => where_filter
    end in
  let where_filter :=
    match paper_ids with
    | Some paper_ids =>
        operands_append where_filter
          (VDict [("path", VList [VStr "paper_id"]);
                  ("operator", VStr "ContainsAny");
                  ("valueText", VList (map VStr paper_ids))])
    | None => where_filter
    end in
  let results :=
    match dict_get where_filter "operands" with
    | Some ops => if truthy ops then with_where results (VDict where_filter)
                  else results
    | None => results
    end in
  let near_text_query : dict := [("concepts", VList [VStr question])] in
  let near_text_query :=
    match distance with
    | Some distance => dict_set near_text_query "distance" (VFloat distance)
    | None => near_text_query
    end in
  let near_text_query :=
    match move_to with
    | Some move_to =>
        dict_set near_text_query "moveTo"
          (VDict [("concepts", VList [VStr move_to]);
                  ("force", opt_float move_to_weight)])
    | None => near_text_query
    end in
  let near_text_query :=
    match move_away_from with
    | Some move_away_from =>
        dict_set near_text_query "moveAwayFrom"
          (VDict [("concepts", VList [VStr move_away_from]);
                  ("force", opt_float move_away_from_weight)])
    | None => near_text_query
    end in
  let results := with_near_text results (VDict near_text_query) in
  with_limit results top_k.

(** [results["data"]["Get"]["Passage"]] *)
Definition passages (results : dict) : Py.result value :=
  match getitem (VDict results) "data" with inl e => inl e | inr data =>
  match getitem data "Get" with inl e => inl e | inr get =>
  getitem get "Passage"
  end end.

(** Lines 207-219: what is made of the response. *)
Definition check_results (results : dict) : prog ext (list Document) :=
  if dict_in "errors" results then
    errors ← lift (getitem (VDict results) "errors");
    Raise (HTTPException 500 (Detail errors))
  else
    empty ← (if negb (dict_in "data" results) then Ret true
             else ps ← lift (passages results); Ret (negb (truthy ps)));
    if (empty : bool) then
      Raise (HTTPException 404 (FString "No results found: " (VDict results)))
    else
      ps ← lift (passages results);
      rs ← lift (iter ps);
      for_each (fun r => lift (to_document r)) rs.

Definition get_documents
    (question : string) (top_k : Z) (distance : option spec_float)
    (topic doc_type preprocessor_id : option string)
    (paper_ids : option (list string))
    (move_to : option string) (move_to_weight : option spec_float)
    (move_away_from : option string) (move_away_from_weight : option spec_float)
  : prog ext (list Document) :=
  results ← call (Do (build_query question top_k distance topic doc_type
                        preprocessor_id paper_ids move_to move_to_weight
                        move_away_from move_away_from_weight));
  check_results results.

End Retriever.

(** ** backend.py *)

Module Backend.

(** One entry of the [messages] list of a chat completion. *)
Record message : Type := { role : string; content : string }.

(** The part of the API response that is read:
    [response.choices[i].message.content]. *)
Record choice : Type := { choice_message : message }.
Record response : Type := { choices : list choice }.

(** What backend.py asks of the OpenAI API and of the local T5 model
    ([_t5(x, **kwargs)]). *)
Inductive ext : Type -> Type :=
| ChatCompletion_create (model : string) (messages : list message) : ext response
| _t5 (x : string) (kwargs : dict) : ext string.

(** [response.choices[0].message.content] *)
Definition first_content (r : response) : result string :=
  match choices r with
  | c :: _ => inr (content (choice_message c))
  | [] => inl IndexError
  end.

Definition _compress (chunk : string) : prog ext string :=
  let instruction := "Summarize the upcoming passage into key points precisely." in
  response ← call (ChatCompletion_create "gpt-3.5-turbo"
                     [ {| role := "system"; content := instruction |};
                       {| role := "user"; content := chunk |} ]);
  lift (first_content response).

(** *** ThreadPoolExecutor *)

(** Runs a task to its end and keeps how it ended, as a future does. *)
Fixpoint attempt {E A} (p : prog E A) : prog E (result A) :=
  match p with
  | Ret a => Ret (inr a)
  | Raise e => Ret (inl e)
  | Vis c k => Vis c (fun x => attempt (k x))
  end.

Section Executor.
Context {E : Type -> Type} {A B : Type} (f : A -> prog E B).

(** The workers take the submitted tasks in an order of their own: at
    each step the pool picks one of the tasks still pending, runs it and
    stores how it ended in the future created for it at submission.
    [picks] gives the choices: a choice [c] takes the pending task at
    position [c] modulo the number of pending tasks. *)
Fixpoint workers (picks : list nat) (n : nat) (pending : list (nat * A))
    (futures : list (option (result B)))
  : prog E (list (option (result B))) :=
  match n with
  | O => Ret futures
  | S n' =>
      let k := Nat.modulo (hd O picks) (length pending) in
      match pending !! k with
      | Some (i, x) =>
          r ← attempt (f x);
          workers (tl picks) n' (delete k pending) (<[i := Some r]> futures)
      | None => Ret futures
      end
  end.

(** [future.result()]: the value, or the exception the task raised.  A
    future no worker ever ran does not occur: every submitted task is
    run before the results are read. *)
Definition future_result (fut : option (result B)) : prog E B :=
  match fut with
  | Some r => lift r
  | None => Raise RuntimeError
  end.

(** [list(executor.map(f, xs))]: one future per element in submission
    order, the results read in that same order. *)
Definition executor_map (picks : list nat) (xs : list A) : prog E (list B) :=
  futures ← workers picks (length xs) (imap pair xs)
               (replicate (length xs) None);
  for_each future_result futures.
End Executor.

(** [picks] is the order in which the pool happens to run the tasks. *)
Definition compress (picks : list nat) (chunks : list string)
  : prog ext (list string) :=
  executor_map _compress picks chunks.

(** What [compress] is documented to amount to: [_compress] mapped over
    the chunks one after the other. *)
Definition compress_sequential (chunks : list string) : prog ext (list string) :=
  for_each _compress chunks.

Definition get_answer (context question : string) : prog ext string :=
  let instruction :=
    "Study the upcoming passage carefully and answer the questions that follows." in
  response ← call (ChatCompletion_create "gpt-3.5-turbo"
                     [ {| role := "system"; content := instruction |};
                       {| role := "user";
                          content := context +:+ "Do you understand the passage?" |};
                       {| role := "user";
                          content := question
                            +:+ " Provide your answer in a precise and concise manner." |} ]);
  lift (first_content response).

(** *** str.join and str.format *)

(** [sep.join(l)] *)
Fixpoint join (sep : string) (l : list string) : string :=
  match l with
  | [] => ""
  | [x] => x
  | x :: l' => x +:+ sep +:+ join sep l'
  end.

Definition is_brace (c : ascii) : bool :=
  orb (Ascii.eqb c "{"%char) (Ascii.eqb c "}"%char).

Fixpoint has_brace (s : string) : bool :=
  match s with
  | EmptyString => false
  | String c s' => orb (is_brace c) (has_brace s')
  end.

Inductive mode : Type :=
| Literal
| Field (rest : nat).

Section Format.
(** The grammar and the rendering of a replacement field
    ([{0}], [{name!r:>10}], ...) are Python's.  [parse_field args kwargs n s]
    stands for them: [s] is the template after the opening brace of the
    [n]-th field, the answer is the text the field is replaced with and
    the number of characters of [s] the field takes up, its closing
    brace included. *)
Context (parse_field : list value -> dict -> nat -> string -> result (string * nat)).
Context (args : list value) (kwargs : dict).

(** The scan of the template: literal text is copied, a doubled brace
    gives one brace, a single closing brace is an error, a single
    opening brace starts a field. *)
Fixpoint format_scan (m : mode) (n : nat) (s : string) : result string :=
  match s with
  | EmptyString => inr ""
  | String c s' =>
      match m with
      | Field (S rest) => format_scan (Field rest) n s'
      | _ =>
          if Ascii.eqb c "{"%char then
            match s' with
            | EmptyString => inl (ValueError "Single '{' encountered in format string")
            | String c' s'' =>
                if Ascii.eqb c' "{"%char then
                  match format_scan Literal n s'' with
                  | inl e => inl e
                  | inr out => inr (String "{"%char out)
                  end
                else
                  match parse_field args kwargs n s' with
                  | inl e => inl e
                  | inr (txt, len) =>
                      match format_scan (Field len) (S n) s' with
                      | inl e => inl e
                      | inr out => inr (txt +:+ out)
                      end
                  end
            end
          else if Ascii.eqb c "}"%char then
            match s' with
            | String c' s'' =>
                if Ascii.eqb c' "}"%char then
                  match format_scan Literal n s'' with
                  | inl e => inl e
                  | inr out => inr (String "}"%char out)
                  end
                else inl (ValueError "Single '}' encountered in format string")
            | EmptyString =>
                inl (ValueError "Single '}' encountered in format string")
            end
          else
            match format_scan Literal n s' with
            | inl e => inl e
            | inr out => inr (String c out)
            end
      end
  end.

(** [template.format] applied to the positional [args] and the keyword
    arguments [kwargs]. *)
Definition format (template : string) : result string :=
  format_scan Literal O template.
End Format.

(** *** torch tensors *)

Section Torch.
(** The scalars of a tensor and their arithmetic. *)
Context {R : Type} (zero : R) (add mul : R -> R -> R).

(** A 2-D tensor: its rows, and the length every row has (which the
    rows alone do not tell when there is none). *)
Record Matrix : Type := { ncols : nat; rows : list (list R) }.

(** The tensors [dot_score] is meant for: 1-D and 2-D. *)
Inductive Tensor : Type :=
| T1 (v : list R)
| T2 (m : Matrix).

Definition shape (t : Tensor) : list nat :=
  match t with
  | T1 v => [length v]
  | T2 m => [length (rows m); ncols m]
  end.

Definition well_shaped (m : Matrix) : Prop :=
  Forall (fun r => length r = ncols m) (rows m).

(** [v.unsqueeze(0)] for a 1-D [v]: a single row. *)
Definition unsqueeze0 (v : list R) : Matrix :=
  {| ncols := length v; rows := [v] |}.

Definition column (j : nat) (m : Matrix) : list R :=
  map (fun r => nth j r zero) (rows m).

(** [m.T] *)
Definition T (m : Matrix) : Matrix :=
  {| ncols := length (rows m);
     rows := map (fun j => column j m) (seq 0 (ncols m)) |}.

(** Sum of the products, in index order. *)
Definition dot (u v : list R) : R :=
  fold_left add (zip_with mul u v) zero.

(** [a @ b]: the entry at row [i] and column [j] is the sum over [k]
    of [a[i][k] * b[k][j]]; the shapes have to agree. *)
Definition matmul (a b : Matrix) : result Matrix :=
  if Nat.eqb (ncols a) (length (rows b)) then
    inr {| ncols := ncols b;
           rows := map (fun ra => map (fun j => dot ra (column j b))
                                      (seq 0 (ncols b)))
                       (rows a) |}
  else inl RuntimeError.

Definition dot_score (a b : Tensor) : result Matrix :=
  let a := match a with
           | T1 v => unsqueeze0 v      (* len(a.shape) == 1 *)
           | T2 m => m
           end in
  let b := match b with
           | T1 v => unsqueeze0 v      (* len(b.shape) == 1 *)
           | T2 m => m
           end in
  matmul a (T b).

(** A 1-D tensor read as a matrix of one row, a 2-D tensor as it is. *)
Definition as_matrix (t : Tensor) : Matrix :=
  match t with
  | T1 v => {| ncols := length v; rows := [v] |}
  | T2 m => m
  end.

(** The product of [a] with the transpose of [b], entry by entry: row
    [i] of [a] against row [j] of [b]. *)
Definition product_with_transpose (a b : Matrix) : result Matrix :=
  if Nat.eqb (ncols a) (ncols b) then
    inr {| ncols := length (rows b);
           rows := map (fun ra => map (fun rb => dot ra rb) (rows b)) (rows a) |}
  else inl RuntimeError.
End Torch.

(** *** T5 prompts *)

Section T5.
Context (parse_field : list value -> dict -> nat -> string -> result (string * nat)).

Definition summarize (sentences : list string) (kwargs : dict) : prog ext string :=
  let TEMPLATE := "summarize: " +:+ join "." sentences in
  x ← lift (format parse_field [VList (map VStr sentences)] [] TEMPLATE);
  call (_t5 x kwargs).

Definition prompt_sum (text question : string) (kwargs : dict) : prog ext string :=
  let TEMPLATE :=
    "Based on the following context answer this question: " +:+ question
      +:+ " Context: " +:+ text in
  x ← lift (format parse_field []
              [("question", VStr question); ("article", VStr text)] TEMPLATE);
  call (_t5 x kwargs).
End T5.

End Backend.

(** ** Auxiliary definitions for the statements *)

(** [[f(x) for x in xs]] for an [f] that makes no external call. *)
Fixpoint traverse {A B} (f : A -> result B) (xs : list A) : result (list B) :=
  match xs with
  | [] => inr []
  | x :: xs' =>
      match f x with
      | inl e => inl e
      | inr y =>
          match traverse f xs' with
          | inl e => inl e
          | inr ys => inr (y :: ys)
          end
      end
  end.

(** The query a program runs first, if it starts by running one. *)
Definition query_sent {A} (p : prog Retriever.ext A) : option Retriever.GetBuilder :=
  match p with
  | Vis c _ =>
      match c with
      | Retriever.Do q => Some q
      | Retriever.CreateClass _ => None
      end
  | _ => None
  end.

(** The clauses of the filter, in the words of the documentation: one
    [Equal] clause for a given topic, doc type and preprocessor id, one
    [ContainsAny] clause for given paper ids. *)
Definition equal_clause (path : string) (v : option string) : list value :=
  match v with
  | Some s => [VDict [("path", VList [VStr path]); ("operator", VStr "Equal");
                      ("valueText", VStr s)]]
  | None => []
  end.

Definition contains_any_clause (path : string) (ids : option (list string))
  : list value :=
  match ids with
  | Some l => [VDict [("path", VList [VStr path]);
                      ("operator", VStr "ContainsAny");
                      ("valueText", VList (map VStr l))]]
  | None => []
  end.

Definition expected_operands (topic doc_type preprocessor_id : option string)
    (paper_ids : option (list string)) : list value :=
  equal_clause "topic" topic ++ equal_clause "doc_type" doc_type
    ++ equal_clause "preprocessor_id" preprocessor_id
    ++ contains_any_clause "paper_id" paper_ids.

(** The weight [0.5]. *)
Definition half : spec_float := S754_finite false 4503599627370496 (-53).

(** [d] holds the fields of passage [p] that [to_document] reads. *)
Definition copied_from (p : value) (d : Retriever.Document) : Prop :=
  getitem p "paper_id" = inr (Retriever.paper_id d)
  /\ getitem p "topic" = inr (Retriever.topic d)
  /\ getitem p "cosmos_object_id" = inr (Retriever.cosmos_object_id d)
  /\ getitem p "doc_type" = inr (Retriever.doc_type d)
  /\ getitem p "text_content" = inr (Retriever.text d)
  /\ exists additional,
       getitem p "_additional" = inr additional
       /\ getitem additional "distance" = inr (Retriever.distance d).

(** A database that answers every query with the same response. *)
Definition constant_db (response : dict)
  : forall X, Retriever.ext X -> unit -> X * unit :=
  fun X c w =>
    match c in Retriever.ext X return X * unit with
    | Retriever.Do _ => (response, w)
    | Retriever.CreateClass _ => (tt, w)
    end.

(** The default weight [1.0]. *)
Definition one : spec_float := S754_finite false 4503599627370496 (-52).

(** [get_documents(client, question, topic=topic)], the other arguments
    at their defaults. *)
Definition get_documents_about (question : string) (topic : option string)
  : prog Retriever.ext (list Retriever.Document) :=
  Retriever.get_documents question 5 None topic None None None None (Some one)
    None (Some one).

(** A passage with every property the schema of [init_retriever] declares,
    and the distance asked for with [with_additional]. *)
Definition stored_passage : value :=
  VDict [("paper_id", VStr "p1"); ("preprocessor_id", VStr "v1");
         ("doc_type", VStr "paragraph"); ("cosmos_object_id", VStr "o1");
         ("topic_list", VList [VStr "covid"]); ("hashed_text", VStr "00");
         ("text_content", VStr "Some text.");
         ("_additional", VDict [("distance", VFloat one)])].

(** A passage as [to_document] expects it. *)
Definition sample_passage (id : string) : value :=
  VDict [("paper_id", VStr id); ("cosmos_object_id", VStr "o1");
         ("preprocessor_id", VStr "v1"); ("topic", VStr "covid");
         ("doc_type", VStr "paragraph"); ("text_content", VStr "Some text.");
         ("_additional", VDict [("distance", VFloat one)])].

Definition sample_document (id : string) : Retriever.Document :=
  {| Retriever.paper_id := VStr id; Retriever.topic := VStr "covid";
     Retriever.cosmos_object_id := VStr "o1";
     Retriever.doc_type := VStr "paragraph";
     Retriever.text := VStr "Some text.";
     Retriever.distance := VFloat one |}.

Definition response_of (entries : list value) : dict :=
  [("data", VDict [("Get", VDict [("Passage", VList entries)])])].

(** A chat service that answers with one choice, repeating the last
    message it was sent; a T5 model that answers with its input. *)
Definition echo (X : Type) (c : Backend.ext X) : X :=
  match c in Backend.ext X return X with
  | Backend.ChatCompletion_create _ messages =>
      {| Backend.choices :=
           [ {| Backend.choice_message :=
                  {| Backend.role := "assistant";
                     Backend.content :=
                       "Re: " +:+ Backend.content
                                    (List.last messages
                                       {| Backend.role := ""; Backend.content := "" |})
                  |} |} ] |}
  | Backend._t5 x _ => x
  end.

(** The same service as a world without state. *)
Definition echo_world (X : Type) (c : Backend.ext X) (w : unit) : X * unit :=
  (echo X c, w).

(** A field parser that knows no field at all. *)
Definition no_field (args : list value) (kwargs : dict) (n : nat) (s : string)
  : result (string * nat) :=
  inl (KeyError s).

(** The messages [get_answer] is documented to send. *)
Definition get_answer_messages (context question : string)
  : list Backend.message :=
  [ {| Backend.role := "system";
       Backend.content :=
         "Study the upcoming passage carefully and answer the questions that follows." |};
    {| Backend.role := "user";
       Backend.content := context +:+ "Do you understand the passage?" |};
    {| Backend.role := "user";
       Backend.content :=
         question +:+ " Provide your answer in a precise and concise manner." |} ].

(** The keys [to_document] reads from a passage, in the order it reads
    them. *)
Definition document_fields : list string :=
  ["paper_id"; "topic"; "cosmos_object_id"; "doc_type"; "text_content";
   "_additional"].

(** The first of them a passage lacks. *)
Definition first_missing (d : dict) : option string :=
  List.find (fun k => negb (dict_in k d)) document_fields.

(** A key that is there when its argument is given. *)
Definition key_if {A} (k : string) (arg : option A) : list string :=
  match arg with
  | Some _ => [k]
  | None => []
  end.

(** The properties of a schema that are vectorized: those not marked
    [moduleConfig.text2vec-transformers.skip]. *)
Definition is_skipped (property : value) : bool :=
  match getitem property "moduleConfig" with
  | inr config =>
      match getitem config "text2vec-transformers" with
      | inr module =>
          match getitem module "skip" with
          | inr (VBool true) => true
          | _ => false
          end
      | inl _ => false
      end
  | inl _ => false
  end.

Definition vectorized_properties (schema : value) : list value :=
  match getitem schema "properties" with
  | inr (VList ps) =>
      omap (fun p => match getitem p "name" with
                     | inr n => if is_skipped p then None else Some n
                     | inl _ => None
                     end) ps
  | _ => []
  end.

(** The request [_compress] makes for a chunk. *)
Definition compress_request (chunk : string) : issued Backend.ext :=
  existT _ (Backend.ChatCompletion_create "gpt-3.5-turbo"
              [ {| Backend.role := "system";
                   Backend.content :=
                     "Summarize the upcoming passage into key points precisely." |};
                {| Backend.role := "user"; Backend.content := chunk |} ]).

(** Doubles every brace of a text, which is how a literal brace is written
    in a format string. *)
Fixpoint escape (s : string) : string :=
  match s with
  | EmptyString => EmptyString
  | String c s' =>
      if Backend.is_brace c then String c (String c (escape s'))
      else String c (escape s')
  end.


(** ** Programs and their runs *)

Section ProgFacts.
Context {E : Type -> Type}.

Lemma bind_lift {A B} (r : result A) (f : A -> prog E B) :
  bind (lift r) f = match r with inl e => Raise e | inr a => f a end.
Proof. destruct r; reflexivity. Qed.

Lemma for_each_lift {A B} (f : A -> result B) (xs : list A) :
  for_each (fun x => lift (E := E) (f x)) xs = lift (traverse f xs).
Proof.
  induction xs as [|x xs IH]; [reflexivity|].
  cbn [for_each traverse]. unfold mbind, prog_mbind, mret.
  rewrite bind_lift. destruct (f x) as [e|y]; [reflexivity|].
  rewrite IH, bind_lift. destruct (traverse f xs); reflexivity.
Qed.

Lemma run_lift {W A} (world : forall X, E X -> W -> X * W) (r : result A) w :
  run world (lift r) w = ([], r, w).
Proof. destruct r; reflexivity. Qed.

Lemma interp_bind {A B} service (m : prog E A) (f : A -> prog E B) :
  interp service (bind m f)
  = match interp service m with
    | inl e => inl e
    | inr a => interp service (f a)
    end.
Proof. induction m as [a|e|X c k IH]; cbn; auto. Qed.

Lemma interp_lift {A} service (r : result A) :
  interp (E := E) service (lift r) = r.
Proof. destruct r; reflexivity. Qed.

Lemma interp_attempt {A} service (p : prog E A) :
  interp service (Backend.attempt p) = inr (interp service p).
Proof. induction p as [a|e|X c k IH]; cbn; auto. Qed.
End ProgFacts.

Lemma traverse_Forall2 {A B} (f : A -> result B) xs ys :
  traverse f xs = inr ys -> Forall2 (fun x y => f x = inr y) xs ys.
Proof.
  revert ys. induction xs as [|x xs IH]; intros ys H; cbn in H.
  - inversion H. constructor.
  - destruct (f x) as [e|y] eqn:Hx; [discriminate|].
    destruct (traverse f xs) as [e|ys'] eqn:Hxs; [discriminate|].
    inversion H; subst. constructor; auto.
Qed.

(** ** get_documents *)

Section GetDocuments.
Import Retriever.

Lemma lift_inj {E A} (r r' : result A) : lift (E := E) r = lift r' -> r = r'.
Proof. destruct r, r'; cbn; congruence. Qed.

(** What is made of the response involves the database no more. *)
Lemma check_results_no_call results :
  exists r, check_results results = lift r.
Proof.
  unfold check_results, mbind, prog_mbind.
  destruct (dict_in "errors" results).
  - rewrite bind_lift. destruct (getitem _ _); eexists (inl _); reflexivity.
  - destruct (dict_in "data" results); cbn [negb bind].
    + rewrite !bind_lift. destruct (passages results) as [e|ps].
      * exists (inl e); reflexivity.
      * cbn [bind]. destruct (truthy ps); cbn [negb].
        -- rewrite bind_lift. destruct (iter ps) as [e|rs].
           ++ exists (inl e); reflexivity.
           ++ rewrite for_each_lift. eauto.
        -- eexists (inl _); reflexivity.
    + eexists (inl _); reflexivity.
Qed.

Lemma check_results_errors results errors :
  dict_get results "errors" = Some errors ->
  check_results results = Raise (HTTPException 500 (Detail errors)).
Proof.
  intros H. unfold check_results, dict_in, getitem. rewrite H. reflexivity.
Qed.

Lemma check_results_no_data results :
  dict_get results "errors" = None ->
  dict_get results "data" = None ->
  check_results results
  = Raise (HTTPException 404 (FString "No results found: " (VDict results))).
Proof.
  intros He Hd. unfold check_results, dict_in. rewrite He, Hd. reflexivity.
Qed.

Lemma check_results_falsy results ps :
  dict_get results "errors" = None ->
  passages results = inr ps ->
  truthy ps = false ->
  check_results results
  = Raise (HTTPException 404 (FString "No results found: " (VDict results))).
Proof.
  intros He Hp Ht. unfold check_results, dict_in. rewrite He.
  destruct (dict_get results "data") eqn:Hd; [|reflexivity].
  cbn [negb]. rewrite Hp. cbn. rewrite Ht. reflexivity.
Qed.

Lemma check_results_success results docs :
  check_results results = Ret docs ->
  dict_get results "errors" = None
  /\ exists ps, passages results = inr (VList ps)
                /\ ps <> []
                /\ traverse to_document ps = inr docs.
Proof.
  unfold check_results, dict_in, mbind, prog_mbind.
  destruct (dict_get results "errors"); cbn [bind].
  { rewrite bind_lift. destruct (getitem _ _); discriminate. }
  destruct (dict_get results "data"); cbn [negb bind]; [|discriminate].
  rewrite !bind_lift. destruct (passages results) as [e|ps]; [discriminate|].
  cbn [bind]. destruct (truthy ps) eqn:Ht; cbn [negb]; [|discriminate].
  rewrite bind_lift. destruct (iter ps) as [e|rs] eqn:Hi; [discriminate|].
  rewrite for_each_lift. intros H. split; [reflexivity|].
  change (Ret docs) with (lift (E := ext) (inr docs)) in H.
  apply lift_inj in H.
  destruct ps as [ | b | z | f | s | l | d]; try discriminate; cbn in Hi.
  - (* a string: its characters are no passages *)
    injection Hi as <-. destruct s as [|c s]; [discriminate|].
    cbn in H. discriminate.
  - injection Hi as <-. exists l. repeat split; auto.
    intros ->. discriminate.
  - (* a dict: its keys are no passages *)
    injection Hi as <-. destruct d as [|[k0 v0] d]; [discriminate|].
    cbn in H. discriminate.
Qed.

Lemma run_get_documents {W} (world : forall X, ext X -> W -> X * W) w
    question top_k distance topic doc_type preprocessor_id paper_ids
    move_to move_to_weight move_away_from move_away_from_weight :
  let q := build_query question top_k distance topic doc_type preprocessor_id
             paper_ids move_to move_to_weight move_away_from
             move_away_from_weight in
  exists r,
    check_results (fst (world _ (Do q) w)) = lift r
    /\ run world (get_documents question top_k distance topic doc_type
                    preprocessor_id paper_ids move_to move_to_weight
                    move_away_from move_away_from_weight) w
       = ([existT _ (Do q)], r, snd (world _ (Do q) w)).
Proof.
  intros q. unfold get_documents, mbind, prog_mbind, call. cbn [bind run].
  fold q. destruct (world _ (Do q) w) as [results w'].
  destruct (check_results_no_call results) as [r Hr].
  exists r. cbn [fst snd]. split; [exact Hr|].
  rewrite Hr, run_lift. reflexivity.
Qed.
End GetDocuments.

Section GetDocumentsClaims.
Import Retriever.

Lemma to_document_copied p d : to_document p = inr d -> copied_from p d.
Proof.
  unfold to_document, copied_from. intros H.
  destruct (getitem p "paper_id"); [discriminate|].
  destruct (getitem p "topic"); [discriminate|].
  destruct (getitem p "cosmos_object_id"); [discriminate|].
  destruct (getitem p "doc_type"); [discriminate|].
  destruct (getitem p "text_content"); [discriminate|].
  destruct (getitem p "_additional") as [|additional]; [discriminate|].
  destruct (getitem additional "distance") eqn:Hd; [discriminate|].
  injection H as <-. cbn. repeat split. eauto.
Qed.

Lemma copied_to_document p d : copied_from p d -> to_document p = inr d.
Proof.
  unfold to_document, copied_from.
  intros (-> & -> & -> & -> & -> & additional & -> & ->).
  destruct d; reflexivity.
Qed.

(** C1.  Whatever the database answers, [get_documents] queries it
    once and only once (nothing is retried).  If the response has an
    ["errors"] key the call raises [HTTPException] 500 with the upstream
    errors as detail.  Otherwise, if the response has no ["data"] key, or
    if the retrieved passage list is empty, it raises [HTTPException]
    404. *)
Theorem get_documents_upstream_failures
    {W} (world : forall X, ext X -> W -> X * W) (w : W)
    question top_k distance topic doc_type preprocessor_id paper_ids
    move_to move_to_weight move_away_from move_away_from_weight :
  let q := build_query question top_k distance topic doc_type preprocessor_id
             paper_ids move_to move_to_weight move_away_from
             move_away_from_weight in
  let p := get_documents question top_k distance topic doc_type
             preprocessor_id paper_ids move_to move_to_weight move_away_from
             move_away_from_weight in
  let results := fst (world _ (Do q) w) in
  let not_found :=
    HTTPException 404 (FString "No results found: " (VDict results)) in
  calls world p w = [existT _ (Do q)]
  /\ (forall errors,
        dict_get results "errors" = Some errors ->
        outcome world p w = inl (HTTPException 500 (Detail errors)))
  /\ (dict_get results "errors" = None ->
      dict_get results "data" = None ->
      outcome world p w = inl not_found)
  /\ (dict_get results "errors" = None ->
      passages results = inr (VList []) ->
      outcome world p w = inl not_found).
Proof.
  intros q p results not_found.
  destruct (run_get_documents world w question top_k distance topic doc_type
              preprocessor_id paper_ids move_to move_to_weight move_away_from
              move_away_from_weight) as (r & Hr & Hrun).
  fold q p results in Hr, Hrun. unfold calls, outcome. rewrite Hrun.
  cbn [fst snd]. split; [reflexivity|]. split; [|split].
  - intros errors He. rewrite (check_results_errors _ _ He) in Hr.
    apply (lift_inj (E := ext) r (inl _)). symmetry. exact Hr.
  - intros He Hd. rewrite (check_results_no_data _ He Hd) in Hr.
    apply (lift_inj (E := ext) r (inl _)). symmetry. exact Hr.
  - intros He Hp. rewrite (check_results_falsy _ _ He Hp eq_refl) in Hr.
    apply (lift_inj (E := ext) r (inl _)). symmetry. exact Hr.
Qed.

(** C2.  The query run by [get_documents] carries a filter if and only
    if one of [topic], [doc_type], [preprocessor_id], [paper_ids] is
    given.  The filter is an [And] whose operands are, in this order and
    with nothing else, the [Equal] clauses of the given topic, doc type
    and preprocessor id and the [ContainsAny] clause of the given paper
    ids, each holding the argument as it was passed. *)
Theorem get_documents_where_filter
    question top_k distance topic doc_type preprocessor_id paper_ids
    move_to move_to_weight move_away_from move_away_from_weight :
  exists q,
    query_sent (get_documents question top_k distance topic doc_type
                  preprocessor_id paper_ids move_to move_to_weight
                  move_away_from move_away_from_weight) = Some q
    /\ (where_filter q = None
        <-> topic = None /\ doc_type = None /\ preprocessor_id = None
            /\ paper_ids = None)
    /\ (where_filter q <> None ->
        where_filter q
        = Some (VDict [("operator", VStr "And");
                       ("operands",
                        VList (expected_operands topic doc_type
                                 preprocessor_id paper_ids))])).
Proof.
  eexists. split; [reflexivity|].
  destruct topic, doc_type, preprocessor_id, paper_ids; cbn;
    (split; [split; [discriminate || tauto | intros (?&?&?&?); congruence]
            | congruence]).
Qed.

(** C3.  For arguments the weaviate client takes (a limit of at least
    1, and a weight with every concept that is given: the client raises
    on any other before a query exists), the semantic-search payload of
    the query has ["concepts"] equal to the one-element list of the
    question; it has ["distance"], holding the argument, exactly when
    [distance] is given; it has ["moveTo"], with concepts the one-element
    list of [move_to] and force the float [move_to_weight], exactly when
    [move_to] is given, and ["moveAwayFrom"] likewise with
    [move_away_from] and [move_away_from_weight]; and the limit of the
    query is [top_k]. *)
Theorem get_documents_near_text
    question top_k distance topic doc_type preprocessor_id paper_ids
    move_to move_to_weight move_away_from move_away_from_weight :
  (1 <= top_k)%Z ->
  (move_to <> None -> move_to_weight <> None) ->
  (move_away_from <> None -> move_away_from_weight <> None) ->
  exists q payload,
    query_sent (get_documents question top_k distance topic doc_type
                  preprocessor_id paper_ids move_to move_to_weight
                  move_away_from move_away_from_weight) = Some q
    /\ near_text q = Some (VDict payload)
    /\ dict_get payload "concepts" = Some (VList [VStr question])
    /\ (distance = None -> dict_get payload "distance" = None)
    /\ (forall d, distance = Some d ->
          dict_get payload "distance" = Some (VFloat d))
    /\ (move_to = None -> dict_get payload "moveTo" = None)
    /\ (forall concept, move_to = Some concept ->
          exists weight,
            move_to_weight = Some weight
            /\ dict_get payload "moveTo"
               = Some (VDict [("concepts", VList [VStr concept]);
                              ("force", VFloat weight)]))
    /\ (move_away_from = None -> dict_get payload "moveAwayFrom" = None)
    /\ (forall concept, move_away_from = Some concept ->
          exists weight,
            move_away_from_weight = Some weight
            /\ dict_get payload "moveAwayFrom"
               = Some (VDict [("concepts", VList [VStr concept]);
                              ("force", VFloat weight)]))
    /\ limit q = Some top_k.
Proof.
  intros _ Hto Haway.
  eexists. eexists. split; [reflexivity|]. split; [reflexivity|].
  assert (Wto : forall c, move_to = Some c ->
                  exists weight, move_to_weight = Some weight).
  { intros c ->. destruct move_to_weight as [weight|]; [eauto|].
    now destruct Hto. }
  assert (Waway : forall c, move_away_from = Some c ->
                    exists weight, move_away_from_weight = Some weight).
  { intros c ->. destruct move_away_from_weight as [weight|]; [eauto|].
    now destruct Haway. }
  clear Hto Haway.
  destruct distance as [d|], move_to as [to|], move_away_from as [away|];
    try (destruct (Wto to eq_refl) as [wto ->]);
    try (destruct (Waway away eq_refl) as [waway ->]);
    cbn; repeat split; try discriminate;
    try (intros ? [= <-]; eauto); try reflexivity.
Qed.

(** C4.  When [get_documents] returns, it returns one [Document] per
    entry of [results["data"]["Get"]["Passage"]], in the same order, and
    every document holds the fields [paper_id], [topic],
    [cosmos_object_id], [doc_type], [text_content] and
    [_additional.distance] of its entry. *)
Theorem get_documents_returns_documents
    {W} (world : forall X, ext X -> W -> X * W) (w : W)
    question top_k distance topic doc_type preprocessor_id paper_ids
    move_to move_to_weight move_away_from move_away_from_weight docs :
  let q := build_query question top_k distance topic doc_type preprocessor_id
             paper_ids move_to move_to_weight move_away_from
             move_away_from_weight in
  outcome world (get_documents question top_k distance topic doc_type
                   preprocessor_id paper_ids move_to move_to_weight
                   move_away_from move_away_from_weight) w = inr docs ->
  exists entries,
    passages (fst (world _ (Do q) w)) = inr (VList entries)
    /\ length docs = length entries
    /\ Forall2 copied_from entries docs.
Proof.
  intros q.
  destruct (run_get_documents world w question top_k distance topic doc_type
              preprocessor_id paper_ids move_to move_to_weight move_away_from
              move_away_from_weight) as (r & Hr & Hrun).
  fold q in Hr, Hrun. unfold outcome. rewrite Hrun. cbn [fst snd].
  intros ->. apply check_results_success in Hr.
  destruct Hr as (_ & entries & Hp & _ & Ht).
  apply traverse_Forall2 in Ht.
  exists entries. split; [exact Hp|].
  assert (HF : Forall2 copied_from entries docs).
  { eapply Forall2_impl; [exact Ht|]. intros; now apply to_document_copied. }
  split; [symmetry; eapply Forall2_length; exact HF | exact HF].
Qed.
(** Conversely, a response without errors whose passage list is not empty
    and whose entries hold the fields read makes [get_documents] return. *)
Lemma get_documents_succeeds
    {W} (world : forall X, ext X -> W -> X * W) (w : W)
    question top_k distance topic doc_type preprocessor_id paper_ids
    move_to move_to_weight move_away_from move_away_from_weight entries docs :
  let q := build_query question top_k distance topic doc_type preprocessor_id
             paper_ids move_to move_to_weight move_away_from
             move_away_from_weight in
  let results := fst (world _ (Do q) w) in
  dict_get results "errors" = None ->
  passages results = inr (VList entries) ->
  entries <> [] ->
  Forall2 copied_from entries docs ->
  outcome world (get_documents question top_k distance topic doc_type
                   preprocessor_id paper_ids move_to move_to_weight
                   move_away_from move_away_from_weight) w = inr docs.
Proof.
  intros q results He Hp Hne HF.
  destruct (run_get_documents world w question top_k distance topic doc_type
              preprocessor_id paper_ids move_to move_to_weight move_away_from
              move_away_from_weight) as (r & Hr & Hrun).
  fold q results in Hr, Hrun. unfold outcome. rewrite Hrun. cbn [fst snd].
  apply (lift_inj (E := ext)). rewrite <- Hr.
  unfold check_results, dict_in, mbind, prog_mbind. rewrite He.
  assert (Hd : exists data, dict_get results "data" = Some data).
  { unfold passages, getitem in Hp.
    destruct (dict_get results "data"); [eauto|discriminate]. }
  destruct Hd as [data ->]. cbn [negb]. rewrite Hp. cbn [lift bind].
  destruct entries as [|e entries]; [congruence|].
  cbn [truthy negb iter lift bind]. rewrite for_each_lift.
  assert (Ht : traverse to_document (e :: entries) = inr docs).
  { clear -HF. induction HF as [|p d ps ds Hpd _ IH]; [reflexivity|].
    cbn [traverse]. rewrite (copied_to_document _ _ Hpd), IH. reflexivity. }
  rewrite Ht. reflexivity.
Qed.

End GetDocumentsClaims.

Section GetDocumentsWitnesses.
Import Retriever.

Lemma get_documents_upstream_failures_witness :
  outcome (constant_db [("errors", VList [VStr "no such class"])])
    (get_documents_about "What is SIR?" None) tt
  = inl (HTTPException 500 (Detail (VList [VStr "no such class"])))
  /\ outcome (constant_db []) (get_documents_about "What is SIR?" None) tt
     = inl (HTTPException 404 (FString "No results found: " (VDict [])))
  /\ outcome (constant_db (response_of []))
       (get_documents_about "What is SIR?" None) tt
     = inl (HTTPException 404
              (FString "No results found: " (VDict (response_of [])))).
Proof.
  split; [|split].
  - apply (proj1 (proj2 (get_documents_upstream_failures
             (constant_db [("errors", VList [VStr "no such class"])]) tt
             "What is SIR?" 5 None None None None None None (Some one) None
             (Some one)))).
    reflexivity.
  - apply (proj1 (proj2 (proj2 (get_documents_upstream_failures
             (constant_db []) tt
             "What is SIR?" 5 None None None None None None (Some one) None
             (Some one))))); reflexivity.
  - apply (proj2 (proj2 (proj2 (get_documents_upstream_failures
             (constant_db (response_of [])) tt
             "What is SIR?" 5 None None None None None None (Some one) None
             (Some one))))); reflexivity.
Defined.

Lemma get_documents_where_filter_witness :
  exists q,
    query_sent (get_documents_about "What is SIR?" (Some "covid")) = Some q
    /\ where_filter q
       = Some (VDict [("operator", VStr "And");
                      ("operands",
                       VList [VDict [("path", VList [VStr "topic"]);
                                     ("operator", VStr "Equal");
                                     ("valueText", VStr "covid")]])]).
Proof.
  destruct (get_documents_where_filter "What is SIR?" 5 None (Some "covid")
              None None None None (Some one) None (Some one))
    as (q & Hq & Hiff & Hw).
  exists q. split; [exact Hq|]. apply Hw.
  intros Hn. apply Hiff in Hn. destruct Hn as [Ht _]. discriminate Ht.
Defined.

Lemma get_documents_returns_documents_witness :
  outcome (constant_db (response_of [sample_passage "p1"; sample_passage "p2"]))
    (get_documents_about "What is SIR?" None) tt
  = inr [sample_document "p1"; sample_document "p2"]
  /\ exists entries,
       passages (response_of [sample_passage "p1"; sample_passage "p2"])
       = inr (VList entries)
       /\ length [sample_document "p1"; sample_document "p2"] = length entries
       /\ Forall2 copied_from entries
            [sample_document "p1"; sample_document "p2"].
Proof.
  split; [reflexivity|].
  apply (get_documents_returns_documents
           (constant_db (response_of [sample_passage "p1"; sample_passage "p2"]))
           tt "What is SIR?" 5 None None None None None None (Some one) None
           (Some one)).
  reflexivity.
Defined.
Lemma get_documents_near_text_witness :
  exists q payload,
    query_sent (get_documents "What is SIR?" 3 (Some half) None None None None
                  (Some "epidemic") (Some half) (Some "finance") (Some one))
    = Some q
    /\ near_text q = Some (VDict payload)
    /\ payload
       = [("concepts", VList [VStr "What is SIR?"]);
          ("distance", VFloat half);
          ("moveTo", VDict [("concepts", VList [VStr "epidemic"]);
                            ("force", VFloat half)]);
          ("moveAwayFrom", VDict [("concepts", VList [VStr "finance"]);
                                  ("force", VFloat one)])]
    /\ dict_get payload "moveTo"
       = Some (VDict [("concepts", VList [VStr "epidemic"]);
                      ("force", VFloat half)])
    /\ dict_get payload "moveAwayFrom"
       = Some (VDict [("concepts", VList [VStr "finance"]);
                      ("force", VFloat one)])
    /\ limit q = Some 3%Z.
Proof.
  destruct (get_documents_near_text "What is SIR?" 3 (Some half) None None None
              None (Some "epidemic") (Some half) (Some "finance") (Some one))
    as (q & payload & Hq & Hn & _ & _ & _ & _ & Hto & _ & Haway & Hl).
  - lia.
  - discriminate.
  - discriminate.
  - destruct (Hto "epidemic" eq_refl) as (wto & Hwto & Hmto).
    destruct (Haway "finance" eq_refl) as (waway & Hwaway & Hmaway).
    injection Hwto as <-. injection Hwaway as <-.
    injection Hq as <-. injection Hn as <-.
    exists (build_query "What is SIR?" 3 (Some half) None None None None
              (Some "epidemic") (Some half) (Some "finance") (Some one)).
    eexists. split; [reflexivity|]. split; [reflexivity|].
    split; [reflexivity|]. split; [exact Hmto|]. split; [exact Hmaway|exact Hl].
Defined.
End GetDocumentsWitnesses.

(** ** The schema and the fields of a passage *)

Section Schema.
Import Retriever.

(** C6.  The schema created by [init_retriever] declares the properties
    [paper_id], [preprocessor_id], [doc_type], [cosmos_object_id],
    [topic_list], [hashed_text] and [text_content].  [get_documents]
    asks for the property [topic] and [to_document] reads it, and
    [topic] is not among the declared ones: a passage holding every
    declared property makes [to_document] raise [KeyError]. *)
Theorem topic_requested_not_declared :
  init_retriever = call (CreateClass (get_schema "Passage"))
  /\ declared_properties (get_schema "Passage")
     = map VStr ["paper_id"; "preprocessor_id"; "doc_type";
                 "cosmos_object_id"; "topic_list"; "hashed_text";
                 "text_content"]
  /\ In "topic" output_fields
  /\ (exists q, query_sent (get_documents_about "What is SIR?" None) = Some q
                /\ properties q = output_fields)
  /\ ~ In (VStr "topic") (declared_properties (get_schema "Passage"))
  /\ Forall (fun name => dict_in name
               match stored_passage with VDict d => d | _ => [] end = true)
       ["paper_id"; "preprocessor_id"; "doc_type"; "cosmos_object_id";
        "topic_list"; "hashed_text"; "text_content"]
  /\ to_document stored_passage = inl (KeyError "topic").
Proof.
  split; [reflexivity|]. split; [reflexivity|].
  split; [cbn; tauto|]. split; [eexists; split; reflexivity|].
  split; [|split; [repeat constructor|reflexivity]].
  cbn. intros H. repeat (destruct H as [H|H]; [discriminate H|]). exact H.
Qed.
End Schema.


(** ** get_answer *)

Section GetAnswer.
Import Backend.

(** C9.  For every context and question, [get_answer] makes one call
    to the chat-completion API, with exactly three messages: the fixed
    system instruction, a user message that is the context followed by
    ["Do you understand the passage?"], and a user message that is the
    question followed by [" Provide your answer in a precise and concise
    manner."].  What it returns is the message content of the first choice
    of the response. *)
Theorem get_answer_three_messages
    {W} (world : forall X, ext X -> W -> X * W) (w : W) context question :
  let request :=
    ChatCompletion_create "gpt-3.5-turbo" (get_answer_messages context question) in
  calls world (get_answer context question) w = [existT _ request]
  /\ length (get_answer_messages context question) = 3
  /\ forall first others,
       choices (fst (world _ request w)) = first :: others ->
       outcome world (get_answer context question) w
       = inr (content (choice_message first)).
Proof.
  intros request. unfold calls, outcome, get_answer, mbind, prog_mbind, call.
  cbn [bind run]. fold (get_answer_messages context question). fold request.
  destruct (world _ request w) as [response w'].
  rewrite run_lift. cbn [fst snd]. repeat split.
  intros first others H. unfold first_content. rewrite H. reflexivity.
Qed.

Lemma get_answer_three_messages_witness :
  outcome echo_world (get_answer "The sky is blue." "What colour is the sky?") tt
  = inr "Re: What colour is the sky? Provide your answer in a precise and concise manner.".
Proof.
  apply (proj2 (proj2 (get_answer_three_messages echo_world tt
                         "The sky is blue." "What colour is the sky?")))
    with (first := {| choice_message :=
                        {| role := "assistant";
                           content := "Re: What colour is the sky? Provide your answer in a precise and concise manner." |} |})
         (others := []).
  reflexivity.
Defined.
End GetAnswer.

(** ** summarize and prompt_sum *)

Section Prompts.
Import Backend.

Lemma has_brace_app s1 s2 :
  has_brace (s1 +:+ s2) = orb (has_brace s1) (has_brace s2).
Proof.
  induction s1 as [|c s1 IH]; [reflexivity|].
  change (String c s1 +:+ s2) with (String c (s1 +:+ s2)).
  cbn [has_brace]. rewrite IH. now destruct (is_brace c), (has_brace s1).
Qed.

Lemma has_brace_join sep l :
  has_brace sep = false ->
  Forall (fun s => has_brace s = false) l ->
  has_brace (join sep l) = false.
Proof.
  intros Hsep Hl. induction Hl as [|x l Hx Hl IH]; [reflexivity|].
  cbn [join]. destruct l as [|y l']; [exact Hx|].
  rewrite !has_brace_app, Hx, Hsep, IH. reflexivity.
Qed.

(** A template without braces is its own rendering. *)
Lemma format_scan_no_brace parse_field args kwargs n s :
  has_brace s = false ->
  format_scan parse_field args kwargs Literal n s = inr s.
Proof.
  induction s as [|c s IH]; [reflexivity|].
  cbn [has_brace]. intros H. apply orb_false_elim in H as [Hc Hs].
  unfold is_brace in Hc. apply orb_false_elim in Hc as [Ho Hcl].
  cbn [format_scan]. rewrite Ho, Hcl, (IH Hs). reflexivity.
Qed.

(** C7.  For sentences without ['{'] and ['}'], [summarize] hands to
    [_t5] exactly ["summarize: "] followed by the sentences joined with
    ["."]: formatting the interpolated template changes nothing.  (This
    holds for the empty list as well.)  Likewise, for a question and a
    text without braces, [prompt_sum] hands to [_t5] exactly ["Based on
    the following context answer this question: "], the question,
    [" Context: "] and the text. *)
Theorem prompts_without_braces parse_field kwargs :
  (forall sentences,
     Forall (fun s => has_brace s = false) sentences ->
     summarize parse_field sentences kwargs
     = call (_t5 ("summarize: " +:+ join "." sentences) kwargs))
  /\ (forall text question,
        has_brace question = false ->
        has_brace text = false ->
        prompt_sum parse_field text question kwargs
        = call (_t5 ("Based on the following context answer this question: "
                       +:+ question +:+ " Context: " +:+ text) kwargs)).
Proof.
  split.
  - intros sentences H. unfold summarize, format, mbind, prog_mbind.
    rewrite format_scan_no_brace; [reflexivity|].
    rewrite has_brace_app, has_brace_join; auto.
  - intros text question Hq Ht. unfold prompt_sum, format, mbind, prog_mbind.
    rewrite format_scan_no_brace; [reflexivity|].
    rewrite !has_brace_app, Hq, Ht. reflexivity.
Qed.

Lemma prompts_without_braces_witness :
  summarize no_field ["Cats purr"; "Dogs bark"] []
  = call (_t5 "summarize: Cats purr.Dogs bark" [])
  /\ prompt_sum no_field "Cats purr." "What do cats do?" []
     = call (_t5 "Based on the following context answer this question: What do cats do? Context: Cats purr." []).
Proof.
  split.
  - apply (proj1 (prompts_without_braces no_field []) ["Cats purr"; "Dogs bark"]).
    repeat constructor.
  - apply (proj2 (prompts_without_braces no_field []) "Cats purr." "What do cats do?");
      reflexivity.
Defined.

(** With braces the formatting is no longer the identity: a doubled brace
    comes out single. *)
Example summarize_doubled_brace :
  summarize no_field ["a{{b"] [] = call (_t5 "summarize: a{b" []).
Proof. reflexivity. Qed.
End Prompts.

(** ** compress *)

Section Compress.
Import Backend.
Context {E : Type -> Type} (service : forall X, E X -> X).
Context {A B : Type} (f : A -> prog E B).

Lemma interp_for_each (xs : list A) :
  interp service (for_each f xs) = traverse (fun x => interp service (f x)) xs.
Proof.
  induction xs as [|x xs IH]; [reflexivity|].
  cbn [for_each traverse]. unfold mbind, prog_mbind, mret.
  rewrite interp_bind. destruct (interp service (f x)); [reflexivity|].
  rewrite interp_bind, IH.
  destruct (traverse _ xs); reflexivity.
Qed.

(** Reading the futures of tasks that all ran is the sequential map. *)
Lemma interp_futures (xs : list A) :
  interp service
    (for_each (future_result (E := E))
       ((fun x => Some (interp service (f x))) <$> xs))
  = traverse (fun x => interp service (f x)) xs.
Proof.
  induction xs as [|x xs IH]; [reflexivity|].
  cbn [fmap list_fmap for_each traverse]. unfold mbind, prog_mbind, mret.
  rewrite interp_bind. cbn [future_result]. rewrite interp_lift.
  destruct (interp service (f x)); [reflexivity|].
  rewrite interp_bind.
  change (list_fmap _ _ ?g xs) with (g <$> xs). rewrite IH.
  destruct (traverse _ xs); reflexivity.
Qed.

Lemma elem_of_delete_ne {X} (l : list X) k x y :
  l !! k = Some y -> x ∈ l -> x <> y -> x ∈ delete k l.
Proof.
  intros Hk Hx Hne. apply list_elem_of_lookup in Hx as [j Hj].
  apply list_elem_of_lookup.
  destruct (decide (j < k)) as [Hlt|Hge].
  - exists j. now rewrite list_lookup_delete_lt.
  - destruct (decide (j = k)) as [->|Hjk]; [congruence|].
    exists (j - 1). rewrite list_lookup_delete_ge by lia.
    replace (S (j - 1)) with j by lia. exact Hj.
Qed.

(** Whatever order the pool picks, once every pending task has run each
    future holds the outcome of the task it was created for. *)
Lemma workers_fill (xs : list A) n :
  forall picks pending futures,
    length pending = n ->
    length futures = length xs ->
    (forall i x, (i, x) ∈ pending -> xs !! i = Some x) ->
    (forall i x, xs !! i = Some x ->
       futures !! i = Some (Some (interp service (f x))) \/ (i, x) ∈ pending) ->
    exists futures',
      interp service (workers f picks n pending futures) = inr futures'
      /\ length futures' = length xs
      /\ forall i x, xs !! i = Some x ->
           futures' !! i = Some (Some (interp service (f x))).
Proof.
  induction n as [|n IH]; intros picks pending futures Hn Hlen Hpend Hinv.
  - exists futures. cbn. repeat split; [exact Hlen|].
    intros i x Hx. destruct (Hinv i x Hx) as [H|H]; [exact H|].
    destruct pending; [|discriminate]. now apply elem_of_nil in H.
  - cbn [workers].
    set (k := Nat.modulo (hd 0 picks) (length pending)).
    assert (Hk : k < length pending).
    { apply Nat.mod_upper_bound. lia. }
    destruct (lookup_lt_is_Some_2 pending k Hk) as [[i x] Hix].
    rewrite Hix. unfold mbind, prog_mbind.
    rewrite interp_bind, interp_attempt.
    assert (Hxi : xs !! i = Some x).
    { apply Hpend. apply list_elem_of_lookup. eauto. }
    apply IH.
    + rewrite length_delete by eauto. lia.
    + now rewrite length_insert.
    + intros j y Hj. apply Hpend. eapply list_elem_of_delete_inv, Hj.
    + intros j y Hy. destruct (decide (j = i)) as [->|Hne].
      * left. assert (y = x) as -> by congruence.
        apply list_lookup_insert_eq. rewrite Hlen.
        eapply lookup_lt_Some, Hxi.
      * destruct (Hinv j y Hy) as [H|H].
        -- left. now rewrite list_lookup_insert_ne.
        -- right. eapply elem_of_delete_ne; eauto. congruence.
Qed.

Lemma interp_executor_map picks (xs : list A) :
  interp service (executor_map f picks xs)
  = traverse (fun x => interp service (f x)) xs.
Proof.
  unfold executor_map, mbind, prog_mbind. rewrite interp_bind.
  destruct (workers_fill xs (length xs) picks (imap pair xs)
              (replicate (length xs) None)) as (futures & -> & Hlen & Hfut).
  - apply length_imap.
  - apply length_replicate.
  - intros i x H. apply elem_of_lookup_imap in H as (j & y & Heq & Hj).
    now inversion Heq; subst.
  - intros i x H. right. now apply (elem_of_lookup_imap_2 pair).
  - assert (futures = (fun x => Some (interp service (f x))) <$> xs) as ->.
    { apply list_eq. intros i. rewrite list_lookup_fmap.
      destruct (xs !! i) as [x|] eqn:Hx; cbn.
      - now apply Hfut.
      - apply lookup_ge_None. rewrite Hlen. now apply lookup_ge_None. }
    apply interp_futures.
Qed.
End Compress.

Section CompressClaims.
Import Backend.

(** C5.  Whatever order the thread pool runs the tasks in, and for
    every list of chunks, [compress] gives what mapping [_compress] over
    the chunks one after the other gives (the same list, or the same
    exception); the list it returns is as long as the list of chunks and
    its [i]-th element is [_compress] of the [i]-th chunk.  The chat
    service is taken to answer a request by a function of the request. *)
Theorem compress_is_sequential_map
    (service : forall X, ext X -> X) (picks : list nat) (chunks : list string) :
  interp service (compress picks chunks)
  = interp service (compress_sequential chunks)
  /\ forall results,
       interp service (compress picks chunks) = inr results ->
       length results = length chunks
       /\ forall i chunk,
            chunks !! i = Some chunk ->
            exists r, results !! i = Some r
                      /\ interp service (_compress chunk) = inr r.
Proof.
  unfold compress, compress_sequential.
  rewrite interp_executor_map, interp_for_each. split; [reflexivity|].
  intros results H. apply traverse_Forall2 in H.
  split; [symmetry; eapply Forall2_length, H|].
  intros i chunk Hi.
  destruct (Forall2_lookup_l _ _ _ _ _ H Hi) as (r & Hr & Hc). eauto.
Qed.

Lemma compress_is_sequential_map_witness :
  interp echo (compress [2; 0; 1] ["a"; "b"; "c"]) = inr ["Re: a"; "Re: b"; "Re: c"]
  /\ length ["Re: a"; "Re: b"; "Re: c"] = length ["a"; "b"; "c"]
  /\ exists r, ["Re: a"; "Re: b"; "Re: c"] !! 1 = Some r
               /\ interp echo (_compress "b") = inr r.
Proof.
  split; [reflexivity|].
  destruct (proj2 (compress_is_sequential_map echo [2; 0; 1] ["a"; "b"; "c"])
              ["Re: a"; "Re: b"; "Re: c"] eq_refl) as [Hlen Hnth].
  split; [exact Hlen|]. exact (Hnth 1 "b" eq_refl).
Defined.

(** The pool does run the tasks in an order of its own: here the third
    chunk is sent first. *)
Example compress_pool_order :
  calls echo_world (compress [2; 0; 0] ["a"; "b"; "c"]) tt
  = map (fun chunk =>
           existT _ (ChatCompletion_create "gpt-3.5-turbo"
                       [ {| role := "system";
                            content := "Summarize the upcoming passage into key points precisely." |};
                         {| role := "user"; content := chunk |} ]))
        ["c"; "a"; "b"].
Proof. reflexivity. Qed.
End CompressClaims.

(** ** dot_score *)

Section DotScore.
Import Backend.
Context {R : Type} (zero : R) (add mul : R -> R -> R).

Lemma map_seq_nth {X Y} (g : X -> Y) (d : X) (l : list X) :
  map (fun j => g (nth j l d)) (seq 0 (length l)) = map g l.
Proof.
  induction l as [|x l IH]; [reflexivity|].
  cbn [length seq map nth]. f_equal.
  rewrite <- seq_shift, List.map_map. exact IH.
Qed.

(** Column [j] of the transpose is row [j]. *)
Lemma column_T (b : Matrix) (j : nat) :
  well_shaped b -> j < length (rows b) ->
  column zero j (T zero b) = nth j (rows b) [].
Proof.
  intros Hb Hj. unfold column, T. cbn [rows ncols].
  rewrite List.map_map.
  assert (Hrow : length (nth j (rows b) []) = ncols b).
  { unfold well_shaped in Hb. rewrite List.Forall_forall in Hb.
    apply Hb. now apply List.nth_In. }
  transitivity (map (fun k => nth k (nth j (rows b) []) zero)
                  (seq 0 (length (nth j (rows b) [])))).
  - rewrite Hrow. apply List.map_ext. intros k.
    unfold column.
    destruct k; exact (List.map_nth (fun r => nth _ r zero) (rows b) [] j).
  - etransitivity; [apply (map_seq_nth (fun x => x) zero)|apply List.map_id].
Qed.

Lemma matmul_T (a b : Matrix) :
  well_shaped b ->
  matmul zero add mul a (T zero b) = product_with_transpose zero add mul a b.
Proof.
  intros Hb. unfold matmul, product_with_transpose.
  cbn [T rows ncols]. rewrite List.length_map, List.length_seq.
  destruct (Nat.eqb (ncols a) (ncols b)); [|reflexivity].
  do 2 f_equal. apply List.map_ext. intros ra.
  rewrite <- (map_seq_nth (fun rb => dot zero add mul ra rb) [] (rows b)).
  apply List.map_ext_in. intros j Hj. apply List.in_seq in Hj.
  f_equal. apply (column_T b j Hb). lia.
Qed.

(** C10.  For tensors [a] and [b] of one or two dimensions,
    [dot_score] returns the product of [a] with the transpose of [b], a
    1-D tensor counting as a matrix of one row: the entry at row [i] and
    column [j] is the sum of the products of row [i] of [a] and row [j] of
    [b] (and the call fails where that product does not exist, the rows of
    [a] and of [b] differing in length).  In particular, for two 1-D
    tensors of equal length the result is the 1-by-1 matrix of their dot
    product. *)
Theorem dot_score_product_with_transpose (a b : Tensor) :
  well_shaped (as_matrix b) ->
  dot_score zero add mul a b
  = product_with_transpose zero add mul (as_matrix a) (as_matrix b)
  /\ forall u v : list R,
       length u = length v ->
       dot_score zero add mul (T1 u) (T1 v)
       = inr {| ncols := 1; rows := [[dot zero add mul u v]] |}.
Proof.
  intros Hb. split.
  - unfold dot_score. destruct a as [u|ma], b as [v|mb]; cbn [as_matrix] in *;
      now apply matmul_T.
  - intros u v Huv. unfold dot_score. rewrite matmul_T.
    + unfold product_with_transpose, unsqueeze0. cbn [ncols rows length map].
      rewrite Huv, Nat.eqb_refl. reflexivity.
    + repeat constructor.
Qed.
End DotScore.

Section DotScoreWitness.
Import Backend.

Lemma dot_score_product_with_transpose_witness :
  dot_score 0%Z Z.add Z.mul
    (T2 {| ncols := 2; rows := [[1; 2]; [3; 4]]%Z |}) (T1 [5; 6]%Z)
  = inr {| ncols := 1; rows := [[17]; [39]]%Z |}
  /\ dot_score 0%Z Z.add Z.mul (T1 [1; 2; 3]%Z) (T1 [4; 5; 6]%Z)
     = inr {| ncols := 1; rows := [[32]]%Z |}.
Proof.
  split.
  - apply (proj1 (dot_score_product_with_transpose 0%Z Z.add Z.mul
                    (T2 {| ncols := 2; rows := [[1; 2]; [3; 4]]%Z |})
                    (T1 [5; 6]%Z) ltac:(repeat constructor))).
  - apply (proj2 (dot_score_product_with_transpose 0%Z Z.add Z.mul
                    (T1 [1; 2; 3]%Z) (T1 [4; 5; 6]%Z) ltac:(repeat constructor))
             [1; 2; 3]%Z [4; 5; 6]%Z eq_refl).
Defined.

(** Rows of different lengths have no product: torch raises. *)
Example dot_score_shape_mismatch :
  dot_score 0%Z Z.add Z.mul (T1 [1; 2; 3]%Z) (T1 [4; 5]%Z) = inl RuntimeError.
Proof. reflexivity. Qed.

(** Two vectors of length 0 give the 1-by-1 matrix of the empty sum. *)
Example dot_score_empty :
  dot_score 0%Z Z.add Z.mul (T1 []) (T1 [])
  = inr {| ncols := 1; rows := [[0%Z]] |}.
Proof. reflexivity. Qed.
End DotScoreWitness.

(** ** get_documents: edges of the response handling *)

Section GetDocumentsEdges.
Import Retriever.
Context {W : Type} (world : forall X, ext X -> W -> X * W) (w : W).
Context (question : string) (top_k : Z) (distance : option spec_float).
Context (topic doc_type preprocessor_id : option string).
Context (paper_ids : option (list string)).
Context (move_to : option string) (move_to_weight : option spec_float).
Context (move_away_from : option string).
Context (move_away_from_weight : option spec_float).

Local Abbreviation the_query :=
  (build_query question top_k distance topic doc_type preprocessor_id
     paper_ids move_to move_to_weight move_away_from move_away_from_weight).
Local Abbreviation the_call :=
  (get_documents question top_k distance topic doc_type preprocessor_id
     paper_ids move_to move_to_weight move_away_from move_away_from_weight).
Local Abbreviation the_results := (fst (world _ (Do the_query) w)).

Lemma get_documents_outcome r :
  check_results the_results = lift r -> outcome world the_call w = r.
Proof.
  intros H.
  destruct (run_get_documents world w question top_k distance topic doc_type
              preprocessor_id paper_ids move_to move_to_weight move_away_from
              move_away_from_weight) as (r' & Hr' & Hrun).
  unfold outcome. rewrite Hrun. cbn [fst snd].
  apply (lift_inj (E := ext)). congruence.
Qed.

Lemma get_documents_outcome_inv r :
  outcome world the_call w = r -> check_results the_results = lift r.
Proof.
  intros H. destruct (check_results_no_call the_results) as [r' Hr'].
  rewrite Hr'. f_equal. rewrite <- H. symmetry.
  now apply get_documents_outcome.
Qed.

(** X1.  [get_documents] never returns an empty list: no passage is a 404. *)
Theorem get_documents_never_empty docs :
  outcome world the_call w = inr docs -> docs <> [].
Proof.
  intros H. apply get_documents_outcome_inv in H.
  apply check_results_success in H as (_ & entries & _ & Hne & Ht).
  apply traverse_Forall2, Forall2_length in Ht.
  intros ->. destruct entries; [congruence|discriminate].
Qed.

(** X2.  With no ["errors"] key, whatever falsy value stands where the
    passages should be ([null], [{}], [""], [0], [false]), and not only
    the empty list, is a 404. *)
Theorem get_documents_falsy_passages ps :
  dict_get the_results "errors" = None ->
  passages the_results = inr ps ->
  truthy ps = false ->
  outcome world the_call w
  = inl (HTTPException 404
           (FString "No results found: " (VDict the_results))).
Proof.
  intros He Hp Ht. apply get_documents_outcome.
  now rewrite (check_results_falsy _ _ He Hp Ht).
Qed.

(** X3.  A response that has ["data"] but not ["data"]["Get"]["Passage"] is
    not turned into an [HTTPException]: the [KeyError] (or the
    [TypeError], when ["data"] or ["Get"] is no object) of the lookup
    comes out as it is. *)
Theorem get_documents_malformed_data data e :
  dict_get the_results "errors" = None ->
  dict_get the_results "data" = Some data ->
  passages the_results = inl e ->
  outcome world the_call w = inl e
  /\ (e = TypeError \/ e = KeyError "Get" \/ e = KeyError "Passage").
Proof.
  intros He Hd Hp. split.
  - apply get_documents_outcome.
    unfold check_results, dict_in, mbind, prog_mbind.
    rewrite He, Hd. cbn [negb]. rewrite Hp. reflexivity.
  - unfold passages, getitem in Hp. rewrite Hd in Hp.
    destruct data as [ | b | z | f | s | l | d]; try (injection Hp as <-; auto).
    destruct (dict_get d "Get") as [get|]; [|injection Hp as <-; auto].
    destruct get as [ | b | z | f | s | l | g]; try (injection Hp as <-; auto).
    destruct (dict_get g "Passage"); [discriminate|injection Hp as <-; auto].
Qed.

(** X4.  The conversion is all or nothing: when an entry cannot be converted,
    the call raises the error of the first such entry and the documents
    of the entries before it are lost. *)
Theorem get_documents_all_or_nothing good bad rest docs e :
  dict_get the_results "errors" = None ->
  passages the_results = inr (VList (good ++ bad :: rest)) ->
  traverse to_document good = inr docs ->
  to_document bad = inl e ->
  outcome world the_call w = inl e.
Proof.
  intros He Hp Hgood Hbad. apply get_documents_outcome.
  unfold check_results, dict_in, mbind, prog_mbind. rewrite He.
  assert (Hd : exists data, dict_get the_results "data" = Some data).
  { unfold passages, getitem in Hp.
    destruct (dict_get the_results "data"); [eauto|discriminate]. }
  destruct Hd as [data ->]. cbn [negb]. rewrite Hp. cbn [lift bind].
  assert (Ht : truthy (VList (good ++ bad :: rest)) = true)
    by now destruct good.
  rewrite Ht. cbn [negb iter lift bind]. rewrite for_each_lift.
  assert (Hall : traverse to_document (good ++ bad :: rest) = inl e).
  { clear -Hgood Hbad. revert docs Hgood.
    induction good as [|g good IH]; intros docs Hgood; cbn.
    - now rewrite Hbad.
    - cbn in Hgood. destruct (to_document g); [discriminate|].
      destruct (traverse to_document good) as [|ds]; [discriminate|].
      now rewrite (IH ds eq_refl). }
  now rewrite Hall.
Qed.

(** X5.  Passages that are not a list (an object, a string, a number, [true])
    are a [TypeError]. *)
Theorem get_documents_passages_not_a_list ps :
  dict_get the_results "errors" = None ->
  passages the_results = inr ps ->
  truthy ps = true ->
  (forall l, ps <> VList l) ->
  outcome world the_call w = inl TypeError.
Proof.
  intros He Hp Ht Hl. apply get_documents_outcome.
  unfold check_results, dict_in, mbind, prog_mbind. rewrite He.
  assert (Hd : exists data, dict_get the_results "data" = Some data).
  { unfold passages, getitem in Hp.
    destruct (dict_get the_results "data"); [eauto|discriminate]. }
  destruct Hd as [data ->]. cbn [negb]. rewrite Hp. cbn [lift bind].
  rewrite Ht. cbn [negb].
  destruct ps as [ | b | z | f | s | l | d]; try reflexivity.
  - destruct s as [|c s]; [discriminate|]. reflexivity.
  - now destruct (Hl l).
  - destruct d as [|[k0 v0] d]; [discriminate|]. reflexivity.
Qed.
End GetDocumentsEdges.

Section GetDocumentsEdgesWitnesses.
Import Retriever.

Lemma get_documents_never_empty_witness :
  outcome (constant_db (response_of [sample_passage "p1"]))
    (get_documents_about "What is SIR?" None) tt
  = inr [sample_document "p1"]
  /\ [sample_document "p1"] <> [].
Proof.
  split; [reflexivity|].
  apply (get_documents_never_empty
           (constant_db (response_of [sample_passage "p1"])) tt
           "What is SIR?" 5 None None None None None None (Some one) None
           (Some one) [sample_document "p1"]).
  reflexivity.
Defined.

Lemma get_documents_falsy_passages_witness :
  outcome (constant_db [("data", VDict [("Get", VDict [("Passage", VNone)])])])
    (get_documents_about "What is SIR?" None) tt
  = inl (HTTPException 404
           (FString "No results found: "
              (VDict [("data", VDict [("Get", VDict [("Passage", VNone)])])]))).
Proof.
  apply (get_documents_falsy_passages
           (constant_db [("data", VDict [("Get", VDict [("Passage", VNone)])])])
           tt "What is SIR?" 5 None None None None None None (Some one) None
           (Some one) VNone); reflexivity.
Defined.

Lemma get_documents_malformed_data_witness :
  outcome (constant_db [("data", VDict [])])
    (get_documents_about "What is SIR?" None) tt
  = inl (KeyError "Get").
Proof.
  apply (proj1 (get_documents_malformed_data
                  (constant_db [("data", VDict [])]) tt
                  "What is SIR?" 5 None None None None None None (Some one)
                  None (Some one) (VDict []) (KeyError "Get")
                  eq_refl eq_refl eq_refl)).
Defined.

Lemma get_documents_all_or_nothing_witness :
  outcome (constant_db (response_of [sample_passage "p1"; stored_passage]))
    (get_documents_about "What is SIR?" None) tt
  = inl (KeyError "topic").
Proof.
  apply (get_documents_all_or_nothing
           (constant_db (response_of [sample_passage "p1"; stored_passage])) tt
           "What is SIR?" 5 None None None None None None (Some one) None
           (Some one) [sample_passage "p1"] stored_passage []
           [sample_document "p1"]); reflexivity.
Defined.

Lemma get_documents_passages_not_a_list_witness :
  outcome (constant_db [("data", VDict [("Get", VDict [("Passage", sample_passage "p1")])])])
    (get_documents_about "What is SIR?" None) tt
  = inl TypeError.
Proof.
  apply (get_documents_passages_not_a_list
           (constant_db [("data", VDict [("Get", VDict [("Passage", sample_passage "p1")])])])
           tt "What is SIR?" 5 None None None None None None (Some one) None
           (Some one) (sample_passage "p1")); try reflexivity.
  intros l H. discriminate H.
Defined.
End GetDocumentsEdgesWitnesses.


(** ** Python dicts *)

Section Dicts.
Lemma dict_get_set_eq (d : dict) k v : dict_get (dict_set d k v) k = Some v.
Proof.
  induction d as [|[k' v'] d IH]; cbn.
  - now rewrite String.eqb_refl.
  - destruct (String.eqb k' k) eqn:Hk; cbn; now rewrite Hk.
Qed.

Lemma dict_get_set_ne (d : dict) k k' v :
  k <> k' -> dict_get (dict_set d k v) k' = dict_get d k'.
Proof.
  intros Hne. induction d as [|[k0 v0] d IH]; cbn.
  - apply String.eqb_neq in Hne. now rewrite Hne.
  - destruct (String.eqb k0 k) eqn:Hk; cbn.
    + apply String.eqb_eq in Hk as ->.
      apply String.eqb_neq in Hne. now rewrite Hne.
    + now rewrite IH.
Qed.
End Dicts.

(** ** to_document *)

Section ToDocument.
Import Retriever.

(** X6.  [to_document] succeeds on exactly the objects that have the six keys
    it reads and a ["distance"] under ["_additional"]; anything else the
    object holds does not matter. *)
Theorem to_document_succeeds_iff (passage : value) :
  (exists d, to_document passage = inr d)
  <-> exists fields additional distance,
        passage = VDict fields
        /\ first_missing fields = None
        /\ dict_get fields "_additional" = Some additional
        /\ getitem additional "distance" = inr distance.
Proof.
  split.
  - intros [d H]. apply to_document_copied in H.
    destruct H as (H1 & H2 & H3 & H4 & H5 & additional & H6 & H7).
    destruct passage as [ | b | z | f | s | l | fields]; try discriminate.
    exists fields, additional, (Retriever.distance d).
    unfold getitem in H1, H2, H3, H4, H5, H6.
    unfold first_missing, document_fields, dict_in. cbn [List.find].
    destruct (dict_get fields "paper_id"); [|discriminate].
    destruct (dict_get fields "topic"); [|discriminate].
    destruct (dict_get fields "cosmos_object_id"); [|discriminate].
    destruct (dict_get fields "doc_type"); [|discriminate].
    destruct (dict_get fields "text_content"); [|discriminate].
    destruct (dict_get fields "_additional"); [|discriminate].
    cbn. repeat split; congruence.
  - intros (fields & additional & dist & -> & Hm & Ha & Hd).
    unfold first_missing, document_fields, dict_in in Hm. cbn [List.find] in Hm.
    unfold to_document, getitem at 1 2 3 4 5 6.
    destruct (dict_get fields "paper_id"); [|discriminate].
    destruct (dict_get fields "topic"); [|discriminate].
    destruct (dict_get fields "cosmos_object_id"); [|discriminate].
    destruct (dict_get fields "doc_type"); [|discriminate].
    destruct (dict_get fields "text_content"); [|discriminate].
    rewrite Ha, Hd. eauto.
Qed.

(** X7.  On an object that lacks some of the keys, [to_document] raises the
    [KeyError] of the first one missing, in the order [paper_id],
    [topic], [cosmos_object_id], [doc_type], [text_content],
    [_additional]. *)
Theorem to_document_first_missing (fields : dict) (k : string) :
  first_missing fields = Some k ->
  to_document (VDict fields) = inl (KeyError k).
Proof.
  unfold first_missing, document_fields, dict_in. cbn [List.find].
  unfold to_document, getitem.
  destruct (dict_get fields "paper_id"); cbn [negb];
    [|intros [= <-]; reflexivity].
  destruct (dict_get fields "topic"); cbn [negb];
    [|intros [= <-]; reflexivity].
  destruct (dict_get fields "cosmos_object_id"); cbn [negb];
    [|intros [= <-]; reflexivity].
  destruct (dict_get fields "doc_type"); cbn [negb];
    [|intros [= <-]; reflexivity].
  destruct (dict_get fields "text_content"); cbn [negb];
    [|intros [= <-]; reflexivity].
  destruct (dict_get fields "_additional"); cbn [negb];
    [discriminate|intros [= <-]; reflexivity].
Qed.

(** X8.  A key that is not one of the six read has no influence on the
    document: [preprocessor_id], which [get_documents] asks the database
    for, is dropped. *)
Theorem to_document_ignores_other_keys (fields : dict) (k : string) (v : value) :
  ~ In k document_fields ->
  to_document (VDict (dict_set fields k v)) = to_document (VDict fields).
Proof.
  intros Hk. unfold to_document, getitem.
  rewrite !dict_get_set_ne; [reflexivity|..];
    intros ->; apply Hk; cbn; tauto.
Qed.

Lemma to_document_succeeds_iff_witness :
  exists d, to_document (sample_passage "p1") = inr d.
Proof.
  apply (proj2 (to_document_succeeds_iff (sample_passage "p1"))).
  eexists _, _, _. repeat split; reflexivity.
Defined.

Lemma to_document_first_missing_witness :
  to_document stored_passage = inl (KeyError "topic").
Proof.
  apply (to_document_first_missing
           match stored_passage with VDict d => d | _ => [] end "topic").
  reflexivity.
Defined.

Lemma to_document_ignores_other_keys_witness :
  to_document
    (VDict (dict_set match sample_passage "p1" with VDict d => d | _ => [] end
              "preprocessor_id" (VStr "v2")))
  = to_document (sample_passage "p1").
Proof.
  apply (to_document_ignores_other_keys
           match sample_passage "p1" with VDict d => d | _ => [] end
           "preprocessor_id" (VStr "v2")).
  cbn. intros H. repeat (destruct H as [H|H]; [discriminate H|]). exact H.
Defined.
End ToDocument.

(** ** The query of get_documents *)

Section Query.
Import Retriever.

(** X9.  The semantic-search payload has the key ["concepts"] and, after it
    and in this order, ["distance"], ["moveTo"] and ["moveAwayFrom"] for
    the arguments that are given: no other key is ever sent. *)
Theorem get_documents_near_text_keys
    question top_k distance topic doc_type preprocessor_id paper_ids
    move_to move_to_weight move_away_from move_away_from_weight :
  exists q payload,
    query_sent (get_documents question top_k distance topic doc_type
                  preprocessor_id paper_ids move_to move_to_weight
                  move_away_from move_away_from_weight) = Some q
    /\ near_text q = Some (VDict payload)
    /\ keys payload
       = "concepts" :: key_if "distance" distance ++ key_if "moveTo" move_to
           ++ key_if "moveAwayFrom" move_away_from.
Proof.
  eexists. eexists. split; [reflexivity|]. split; [reflexivity|].
  destruct distance, move_to, move_away_from; reflexivity.
Qed.

(** X10.  The filter of the query depends on [topic], [doc_type],
    [preprocessor_id] and [paper_ids] alone, and what is sent for the
    semantic search does not depend on them.  A weight whose concept is
    not given changes nothing in the query, whatever the other arguments
    are, the other concept and its weight included. *)
Theorem get_documents_arguments_separate
    question top_k distance topic doc_type preprocessor_id paper_ids
    move_to move_to_weight move_away_from move_away_from_weight
    question' top_k' distance' topic' doc_type' preprocessor_id' paper_ids'
    move_to' move_to_weight' move_away_from' move_away_from_weight' :
  where_filter
    (build_query question top_k distance topic doc_type preprocessor_id
       paper_ids move_to move_to_weight move_away_from move_away_from_weight)
  = where_filter
      (build_query question' top_k' distance' topic doc_type preprocessor_id
         paper_ids move_to' move_to_weight' move_away_from'
         move_away_from_weight')
  /\ near_text
       (build_query question top_k distance topic doc_type preprocessor_id
          paper_ids move_to move_to_weight move_away_from
          move_away_from_weight)
     = near_text
         (build_query question top_k' distance topic' doc_type'
            preprocessor_id' paper_ids' move_to move_to_weight move_away_from
            move_away_from_weight)
  /\ build_query question top_k distance topic doc_type preprocessor_id
       paper_ids None move_to_weight move_away_from move_away_from_weight
     = build_query question top_k distance topic doc_type preprocessor_id
         paper_ids None move_to_weight' move_away_from move_away_from_weight
  /\ build_query question top_k distance topic doc_type preprocessor_id
       paper_ids move_to move_to_weight None move_away_from_weight
     = build_query question top_k distance topic doc_type preprocessor_id
         paper_ids move_to move_to_weight None move_away_from_weight'.
Proof.
  split; [|split; [|split]].
  - destruct topic, doc_type, preprocessor_id, paper_ids; reflexivity.
  - reflexivity.
  - reflexivity.
  - reflexivity.
Qed.
End Query.

(** ** get_schema *)

Section SchemaFacts.
Import Retriever.

(** X11.  Whatever the class is called, its schema carries that name and
    declares the same seven properties, no name twice; [text_content] is
    the only one that is vectorized. *)
Theorem get_schema_properties (cls : string) :
  getitem (get_schema cls) "class" = inr (VStr cls)
  /\ declared_properties (get_schema cls)
     = map VStr ["paper_id"; "preprocessor_id"; "doc_type";
                 "cosmos_object_id"; "topic_list"; "hashed_text";
                 "text_content"]
  /\ List.NoDup (declared_properties (get_schema cls))
  /\ vectorized_properties (get_schema cls) = [VStr "text_content"].
Proof.
  split; [reflexivity|]. split; [reflexivity|]. split; [|reflexivity].
  cbn. repeat (constructor; [cbn; intros H;
    repeat (destruct H as [H|H]; [discriminate H|]); exact H|]).
  constructor.
Qed.
End SchemaFacts.


(** ** Runs of composed programs *)

Section RunFacts.
Context {E : Type -> Type} {W : Type} (world : forall X, E X -> W -> X * W).

Lemma run_bind {A B} (m : prog E A) (f : A -> prog E B) w :
  run world (bind m f) w
  = let '(tr, r, w1) := run world m w in
    match r with
    | inl e => (tr, inl e, w1)
    | inr a =>
        let '(tr2, r2, w2) := run world (f a) w1 in (tr ++ tr2, r2, w2)
    end.
Proof.
  revert w. induction m as [a|e|X c k IH]; intros w; cbn [bind run].
  - now destruct (run world (f a) w) as [[tr r] w'].
  - reflexivity.
  - destruct (world X c w) as [x w1]. rewrite IH.
    destruct (run world (k x) w1) as [[tr r] w2].
    destruct r as [e|a]; [reflexivity|].
    now destruct (run world (f a) w2) as [[tr2 r2] w3].
Qed.

Lemma run_attempt {A} (p : prog E A) w :
  run world (Backend.attempt p) w
  = let '(tr, r, w1) := run world p w in (tr, inr r, w1).
Proof.
  revert w. induction p as [a|e|X c k IH]; intros w; cbn [Backend.attempt run];
    try reflexivity.
  destruct (world X c w) as [x w1]. rewrite IH.
  now destruct (run world (k x) w1) as [[tr r] w2].
Qed.

Lemma for_each_future_result {B} (futures : list (option (result B))) :
  exists r, for_each (Backend.future_result (E := E)) futures = lift r.
Proof.
  induction futures as [|fut futures [r IH]]; [now exists (inr [])|].
  cbn [for_each]. unfold mbind, prog_mbind, mret. rewrite IH.
  destruct fut as [[e|b]|]; cbn [Backend.future_result lift bind].
  - now exists (inl e).
  - destruct r as [e|bs]; [now exists (inl e)|now exists (inr (b :: bs))].
  - now exists (inl RuntimeError).
Qed.
End RunFacts.

(** ** The chat wrappers at their edges *)

Section ChatEdges.
Import Backend.
Context {W : Type} (world : forall X, ext X -> W -> X * W).

Lemma run_compress chunk w :
  exists response w',
    run world (_compress chunk) w
    = ([compress_request chunk], first_content response, w').
Proof.
  unfold _compress, mbind, prog_mbind, call. cbn [bind run].
  match goal with |- context [world _ ?c w] =>
    destruct (world _ c w) as [response w'] end.
  exists response, w'. now rewrite run_lift.
Qed.

(** X12.  A response without choices makes [get_answer] and [_compress] raise
    [IndexError], the one call having been made. *)
Theorem no_choice_IndexError w :
  (forall context question,
     choices (fst (world _ (ChatCompletion_create "gpt-3.5-turbo"
                              (get_answer_messages context question)) w)) = [] ->
     calls world (get_answer context question) w
     = [existT _ (ChatCompletion_create "gpt-3.5-turbo"
                    (get_answer_messages context question))]
     /\ outcome world (get_answer context question) w = inl IndexError)
  /\ (forall chunk,
        choices (fst (world _ (projT2 (compress_request chunk)) w)) = [] ->
        calls world (_compress chunk) w = [compress_request chunk]
        /\ outcome world (_compress chunk) w = inl IndexError).
Proof.
  split.
  - intros context question H.
    unfold calls, outcome, get_answer, mbind, prog_mbind, call.
    cbn [bind run]. fold (get_answer_messages context question).
    destruct (world _ _ w) as [response w']. cbn [fst] in H.
    rewrite run_lift. cbn [fst snd]. unfold first_content. now rewrite H.
  - intros chunk H.
    unfold calls, outcome, _compress, mbind, prog_mbind, call.
    cbn [bind run]. cbn [compress_request projT2] in H.
    destruct (world _ _ w) as [response w']. cbn [fst] in H.
    rewrite run_lift. cbn [fst snd]. unfold first_content. now rewrite H.
Qed.

Lemma workers_calls n :
  forall picks pending futures w,
    length pending = n ->
    exists futures' w',
      run world (workers _compress picks n pending futures) w
      = (fst (fst (run world (workers _compress picks n pending futures) w)),
         inr futures', w')
      /\ fst (fst (run world (workers _compress picks n pending futures) w))
         ≡ₚ map (fun ix => compress_request (snd ix)) pending
      /\ length futures' = length futures.
Proof.
  induction n as [|n IH]; intros picks pending futures w Hn.
  - destruct pending; [|discriminate]. exists futures, w. now cbn.
  - cbn [workers].
    set (k := Nat.modulo (hd 0 picks) (length pending)).
    assert (Hk : k < length pending) by (apply Nat.mod_upper_bound; lia).
    destruct (lookup_lt_is_Some_2 pending k Hk) as [[i x] Hix].
    rewrite Hix. unfold mbind, prog_mbind.
    rewrite run_bind, run_attempt.
    destruct (run_compress x w) as (response & w1 & ->).
    assert (Hlen : length (delete k pending) = n).
    { rewrite length_delete by eauto. lia. }
    destruct (IH (tl picks) (delete k pending)
                (<[i := Some (first_content response)]> futures) w1 Hlen)
      as (futures' & w' & Hrun & Hperm & Hlength).
    rewrite Hrun. exists futures', w'. cbn [fst snd app]. split; [reflexivity|].
    split; [|now rewrite Hlength, length_insert].
    rewrite Hperm.
    rewrite (delete_Permutation pending k (i, x) Hix) at 2. reflexivity.
Qed.

Lemma future_results_length {B} (futures : list (option (result B))) results :
  for_each (future_result (E := ext)) futures = Ret results ->
  length results = length futures.
Proof.
  revert results. induction futures as [|fut futures IH]; intros results H.
  - cbn in H. now injection H as <-.
  - cbn [for_each] in H. unfold mbind, prog_mbind, mret in H.
    destruct fut as [[e|b]|]; cbn [future_result lift bind] in H;
      try discriminate.
    destruct (for_each_future_result (E := ext) futures) as [[e|bs] Hr];
      rewrite Hr in H; cbn in H; [discriminate|].
    injection H as <-. cbn [length]. f_equal. now apply IH.
Qed.

(** X13.  When [compress] returns, every chunk was sent to the API exactly
    once, in a request of its own (in whatever order), and there are as
    many summaries as chunks.  For no chunk at all, no request is made and
    the empty list is returned. *)
Theorem compress_requests w picks chunks :
  (forall results,
     outcome world (compress picks chunks) w = inr results ->
     calls world (compress picks chunks) w ≡ₚ map compress_request chunks
     /\ length results = length chunks)
  /\ calls world (compress picks []) w = []
  /\ outcome world (compress picks []) w = inr [].
Proof.
  split; [|split; reflexivity].
  intros results. unfold calls, outcome, compress, executor_map, mbind, prog_mbind.
  rewrite run_bind.
  destruct (workers_calls (length chunks) picks (imap pair chunks)
              (replicate (length chunks) None) w (length_imap _ _))
    as (futures & w' & Hrun & Hperm & Hlen).
  rewrite Hrun.
  destruct (for_each_future_result (E := ext) futures) as [r Hr].
  rewrite Hr, run_lift. cbn [fst snd]. intros ->. split.
  - rewrite app_nil_r, Hperm.
    enough (Heq : map (fun ix : nat * string => compress_request (snd ix))
                    (imap pair chunks)
                  = map compress_request chunks) by now rewrite Heq.
    clear. change (map ?f ?l) with (f <$> l).
    apply list_eq. intros i. rewrite !list_lookup_fmap, list_lookup_imap.
    now destruct (chunks !! i).
  - rewrite (future_results_length _ _ Hr), Hlen. apply length_replicate.
Qed.
End ChatEdges.

Section ChatEdgesWitnesses.
Import Backend.

(** A chat service that has nothing to say. *)
Lemma no_choice_IndexError_witness :
  outcome (fun X (c : ext X) (w : unit) =>
             match c in ext X return X * unit with
             | ChatCompletion_create _ _ => ({| choices := [] |}, w)
             | _t5 x _ => (x, w)
             end)
    (get_answer "The sky is blue." "What colour is the sky?") tt
  = inl IndexError.
Proof.
  apply (proj1 (no_choice_IndexError
                  (fun X (c : ext X) (w : unit) =>
                     match c in ext X return X * unit with
                     | ChatCompletion_create _ _ => ({| choices := [] |}, w)
                     | _t5 x _ => (x, w)
                     end) tt)
           "The sky is blue." "What colour is the sky?" eq_refl).
Defined.

Lemma compress_requests_witness :
  calls echo_world (compress [2; 0; 0] ["a"; "b"; "c"]) tt
  ≡ₚ map compress_request ["a"; "b"; "c"]
  /\ length ["Re: a"; "Re: b"; "Re: c"] = length ["a"; "b"; "c"].
Proof.
  apply (proj1 (compress_requests echo_world tt [2; 0; 0] ["a"; "b"; "c"])
           ["Re: a"; "Re: b"; "Re: c"]).
  reflexivity.
Defined.
End ChatEdgesWitnesses.

(** ** Braces in the prompts *)

Section Braces.
Import Backend.
Context (parse_field : list value -> dict -> nat -> string -> result (string * nat)).

Lemma string_app_cons c a b : String c a +:+ b = String c (a +:+ b).
Proof. reflexivity. Qed.

Lemma string_app_assoc a b c : (a +:+ b) +:+ c = a +:+ b +:+ c.
Proof.
  induction a as [|x a IH]; [reflexivity|].
  now rewrite !string_app_cons, IH.
Qed.

Lemma is_brace_true c : is_brace c = true -> c = "{"%char \/ c = "}"%char.
Proof.
  unfold is_brace. intros H. apply orb_true_iff in H as [H|H];
    apply Ascii.eqb_eq in H; auto.
Qed.

Lemma escape_app a b : escape (a +:+ b) = escape a +:+ escape b.
Proof.
  induction a as [|c a IH]; [reflexivity|].
  rewrite string_app_cons. cbn [escape].
  destruct (is_brace c); now rewrite !string_app_cons, IH.
Qed.

Lemma escape_join sep l :
  escape (join sep l) = join (escape sep) (map escape l).
Proof.
  induction l as [|x l IH]; [reflexivity|].
  destruct l as [|y l]; [reflexivity|].
  change (join sep (x :: y :: l)) with (x +:+ sep +:+ join sep (y :: l)).
  change (join (escape sep) (map escape (x :: y :: l)))
    with (escape x +:+ escape sep +:+ join (escape sep) (map escape (y :: l))).
  now rewrite !escape_app, IH.
Qed.

Lemma format_scan_escape args kwargs n s :
  format_scan parse_field args kwargs Literal n (escape s) = inr s.
Proof.
  induction s as [|c s IH]; [reflexivity|].
  cbn [escape]. destruct (is_brace c) eqn:Hc.
  - apply is_brace_true in Hc as [-> | ->]; cbn [format_scan Ascii.eqb];
      simpl; now rewrite IH.
  - unfold is_brace in Hc. apply orb_false_elim in Hc as [Ho Hcl].
    cbn [format_scan]. now rewrite Ho, Hcl, IH.
Qed.

(** Doubling the braces of a text is what makes it come through the
    formatting unchanged: [str.format] undoes [escape]. *)
Theorem format_escape args kwargs s :
  format parse_field args kwargs (escape s) = inr s.
Proof. apply format_scan_escape. Qed.

(** X15.  [summarize] and [prompt_sum] hand to [_t5] the prompt of the
    original texts when they are given the texts with every brace
    doubled, whatever braces the texts hold. *)
Theorem prompts_of_escaped_texts kwargs :
  (forall sentences,
     summarize parse_field (map escape sentences) kwargs
     = call (_t5 ("summarize: " +:+ join "." sentences) kwargs))
  /\ (forall text question,
        prompt_sum parse_field (escape text) (escape question) kwargs
        = call (_t5 ("Based on the following context answer this question: "
                       +:+ question +:+ " Context: " +:+ text) kwargs)).
Proof.
  split.
  - intros sentences. unfold summarize, mbind, prog_mbind.
    change "summarize: " with (escape "summarize: ") at 1.
    change "." with (escape ".") at 1.
    now rewrite <- escape_join, <- escape_app, format_escape.
  - intros text question. unfold prompt_sum, mbind, prog_mbind.
    change "Based on the following context answer this question: "
      with (escape "Based on the following context answer this question: ") at 1.
    change " Context: " with (escape " Context: ") at 1.
    now rewrite <- !escape_app, format_escape.
Qed.
End Braces.

Section UnmatchedBrace.
Import Backend.
Context (parse_field : list value -> dict -> nat -> string -> result (string * nat)).

Lemma string_app_nil_r a : a +:+ "" = a.
Proof. induction a as [|c a IH]; [reflexivity|]. now rewrite string_app_cons, IH. Qed.

(** Text without braces in front of a template is copied. *)
Lemma format_scan_prefix args kwargs n p s :
  has_brace p = false ->
  format_scan parse_field args kwargs Literal n (p +:+ s)
  = match format_scan parse_field args kwargs Literal n s with
    | inl e => inl e
    | inr out => inr (p +:+ out)
    end.
Proof.
  induction p as [|c p IH].
  - intros _. change ("" +:+ s) with s.
    now destruct (format_scan parse_field args kwargs Literal n s).
  - cbn [has_brace]. intros H. apply orb_false_elim in H as [Hc Hp].
    unfold is_brace in Hc. apply orb_false_elim in Hc as [Ho Hcl].
    rewrite string_app_cons. cbn [format_scan]. rewrite Ho, Hcl, (IH Hp).
    now destruct (format_scan parse_field args kwargs Literal n s).
Qed.

Lemma format_scan_single_close args kwargs n q :
  (forall rest, q <> String "}" rest) ->
  format_scan parse_field args kwargs Literal n (String "}" q)
  = inl (ValueError "Single '}' encountered in format string").
Proof.
  intros Hq. cbn [format_scan Ascii.eqb]. simpl.
  destruct q as [|c q]; [reflexivity|].
  destruct (Ascii.eqb c "}") eqn:Hc; [|reflexivity].
  apply Ascii.eqb_eq in Hc as ->. now destruct (Hq q).
Qed.

Lemma join_dot_middle before x after :
  exists P Q,
    join "." (before ++ x :: after) = P +:+ x +:+ Q
    /\ (Forall (fun s => has_brace s = false) before -> has_brace P = false)
    /\ (Q = "" \/ exists Q', Q = String "." Q').
Proof.
  induction before as [|b before (P & Q & Hj & HP & HQ)].
  - destruct after as [|y after].
    + exists "", "". cbn [app join]. rewrite string_app_nil_r. auto.
    + exists "", ("." +:+ join "." (y :: after)). repeat split; eauto.
  - exists (b +:+ "." +:+ P), Q. split; [|split; [|exact HQ]].
    + change ((b :: before) ++ x :: after) with (b :: (before ++ x :: after)).
      destruct (before ++ x :: after) as [|z l] eqn:Hl.
      { now destruct before. }
      change (join "." (b :: z :: l)) with (b +:+ "." +:+ join "." (z :: l)).
      now rewrite Hj, !string_app_assoc.
    + intros HF. inversion HF as [|? ? Hb HF']; subst.
      now rewrite !has_brace_app, Hb, (HP HF').
Qed.

(** X16.  A closing brace that is not doubled makes [summarize] raise
    [ValueError] without calling [_t5], wherever it stands after text free
    of braces. *)
Theorem summarize_unmatched_closing_brace kwargs before pre post after :
  Forall (fun s => has_brace s = false) before ->
  has_brace pre = false ->
  (forall rest, post <> String "}" rest) ->
  summarize parse_field (before ++ (pre +:+ "}" +:+ post) :: after) kwargs
  = Raise (ValueError "Single '}' encountered in format string").
Proof.
  intros Hbefore Hpre Hpost. unfold summarize, format, mbind, prog_mbind.
  destruct (join_dot_middle before (pre +:+ "}" +:+ post) after)
    as (P & Q & -> & HP & HQ).
  replace ("summarize: " +:+ P +:+ (pre +:+ "}" +:+ post) +:+ Q)
    with (("summarize: " +:+ P +:+ pre) +:+ String "}" (post +:+ Q)).
  2:{ now rewrite !string_app_assoc. }
  rewrite format_scan_prefix.
  2:{ now rewrite !has_brace_app, (HP Hbefore), Hpre. }
  rewrite format_scan_single_close; [reflexivity|].
  intros rest. destruct post as [|c post].
  - change ("" +:+ Q) with Q. destruct HQ as [->|[Q' ->]]; discriminate.
  - rewrite string_app_cons. intros [= -> _]. now destruct (Hpost post).
Qed.

End UnmatchedBrace.

Lemma summarize_unmatched_closing_brace_witness :
  Backend.summarize no_field ["Cats purr"; "f(x) = } else"; "Dogs bark"] []
  = Raise (ValueError "Single '}' encountered in format string").
Proof.
  apply (summarize_unmatched_closing_brace no_field [] ["Cats purr"] "f(x) = "
           " else" ["Dogs bark"]).
  - repeat constructor.
  - reflexivity.
  - intros rest H. discriminate H.
Defined.

(** ** compress: which failure is reported *)

Section CompressFailure.
Import Backend.



End CompressFailure.

(** ** dot_score: shape, failure, symmetry *)

Section DotScoreFacts.
Import Backend.
Context {R : Type} (zero : R) (add mul : R -> R -> R).

(** X17.  The scores have one row per row of [a] and one column per row of [b],
    every row in full. *)
Theorem dot_score_shape (a b : Tensor) (m : Matrix) :
  dot_score zero add mul a b = inr m ->
  length (rows m) = length (rows (as_matrix a))
  /\ ncols m = length (rows (as_matrix b))
  /\ well_shaped m.
Proof.
  unfold dot_score.
  change (match a with T1 v => unsqueeze0 v | T2 m0 => m0 end)
    with (as_matrix a).
  change (match b with T1 v => unsqueeze0 v | T2 m0 => m0 end)
    with (as_matrix b).
  unfold matmul. cbn [T rows ncols].
  destruct (Nat.eqb _ _); [|discriminate].
  intros [= <-]. cbn [rows ncols]. rewrite List.length_map.
  repeat split. unfold well_shaped. cbn [rows ncols].
  apply List.Forall_forall. intros r Hr.
  apply List.in_map_iff in Hr as (ra & <- & _).
  now rewrite List.length_map, List.length_seq.
Qed.

(** X18.  For two tensors of one scalar type, [dot_score] raises torch's
    [RuntimeError] whenever the rows of [a] and the rows of [b] differ in
    length; so whenever it returns, they have the same length. *)
Theorem dot_score_length_mismatch (a b : Tensor) :
  (ncols (as_matrix a) <> ncols (as_matrix b) ->
   dot_score zero add mul a b = inl RuntimeError)
  /\ (forall m, dot_score zero add mul a b = inr m ->
       ncols (as_matrix a) = ncols (as_matrix b)).
Proof.
  unfold dot_score.
  change (match a with T1 v => unsqueeze0 v | T2 m0 => m0 end)
    with (as_matrix a).
  change (match b with T1 v => unsqueeze0 v | T2 m0 => m0 end)
    with (as_matrix b).
  unfold matmul. cbn [T rows ncols].
  rewrite List.length_map, List.length_seq.
  destruct (Nat.eqb_spec (ncols (as_matrix a)) (ncols (as_matrix b))) as [He|Hne].
  - split; [congruence|auto].
  - split; [reflexivity|discriminate].
Qed.

Lemma dot_score_as_product (a b : Tensor) :
  well_shaped (as_matrix b) ->
  dot_score zero add mul a b
  = product_with_transpose zero add mul (as_matrix a) (as_matrix b).
Proof.
  intros Hb. unfold dot_score.
  destruct a as [u|ma], b as [v|mb]; cbn [as_matrix] in *; now apply matmul_T.
Qed.

Lemma dot_comm (u v : list R) :
  (forall x y, mul x y = mul y x) ->
  dot zero add mul u v = dot zero add mul v u.
Proof.
  intros Hmul. unfold dot. f_equal. revert v.
  induction u as [|x u IH]; intros [|y v]; cbn; [reflexivity..|].
  now rewrite Hmul, IH.
Qed.

Lemma T_product_with_transpose (a b : Matrix) m :
  (forall x y, mul x y = mul y x) ->
  product_with_transpose zero add mul a b = inr m ->
  product_with_transpose zero add mul b a = inr (T zero m).
Proof.
  intros Hmul. unfold product_with_transpose.
  rewrite (Nat.eqb_sym (ncols b) (ncols a)).
  destruct (Nat.eqb _ _); [|discriminate].
  intros [= <-]. unfold T. cbn [rows ncols].
  rewrite List.length_map. do 2 f_equal.
  rewrite <- (map_seq_nth (fun rb => map (fun ra => dot zero add mul rb ra) (rows a))
                [] (rows b)).
  apply List.map_ext_in. intros j Hj. apply List.in_seq in Hj.
  unfold column. cbn [rows]. rewrite List.map_map.
  apply List.map_ext. intros ra.
  rewrite (List.nth_indep _ zero (dot zero add mul ra []))
    by (rewrite List.length_map; lia).
  rewrite (List.map_nth (fun rb => dot zero add mul ra rb)).
  now apply dot_comm.
Qed.

(** X19.  With a commutative product of scalars, scoring [b] against [a] gives
    the transpose of scoring [a] against [b]. *)
Theorem dot_score_symmetric (a b : Tensor) (m : Matrix) :
  (forall x y, mul x y = mul y x) ->
  well_shaped (as_matrix a) ->
  well_shaped (as_matrix b) ->
  dot_score zero add mul a b = inr m ->
  dot_score zero add mul b a = inr (T zero m).
Proof.
  intros Hmul Ha Hb H.
  rewrite (dot_score_as_product a b Hb) in H.
  rewrite (dot_score_as_product b a Ha).
  now apply T_product_with_transpose.
Qed.
End DotScoreFacts.

Section DotScoreFactsWitnesses.
Import Backend.

Lemma dot_score_shape_witness :
  length [[17]; [39]]%Z = 2 /\ 1 = 1
  /\ well_shaped {| ncols := 1; rows := [[17]; [39]]%Z |}.
Proof.
  apply (dot_score_shape 0%Z Z.add Z.mul
           (T2 {| ncols := 2; rows := [[1; 2]; [3; 4]]%Z |}) (T1 [5; 6]%Z)
           {| ncols := 1; rows := [[17]; [39]]%Z |}).
  reflexivity.
Defined.

Lemma dot_score_length_mismatch_witness :
  dot_score 0%Z Z.add Z.mul (T1 [1; 2; 3]%Z) (T1 [4; 5]%Z) = inl RuntimeError
  /\ ncols (as_matrix (T2 {| ncols := 2; rows := [[1; 2]; [3; 4]]%Z |}))
     = ncols (as_matrix (T1 [5; 6]%Z)).
Proof.
  split.
  - apply (proj1 (dot_score_length_mismatch 0%Z Z.add Z.mul
                    (T1 [1; 2; 3]%Z) (T1 [4; 5]%Z))).
    cbn. lia.
  - apply (proj2 (dot_score_length_mismatch 0%Z Z.add Z.mul
                    (T2 {| ncols := 2; rows := [[1; 2]; [3; 4]]%Z |})
                    (T1 [5; 6]%Z))
             {| ncols := 1; rows := [[17]; [39]]%Z |}).
    reflexivity.
Defined.

Lemma dot_score_symmetric_witness :
  dot_score 0%Z Z.add Z.mul (T1 [5; 6]%Z)
    (T2 {| ncols := 2; rows := [[1; 2]; [3; 4]]%Z |})
  = inr {| ncols := 2; rows := [[17; 39]]%Z |}.
Proof.
  apply (dot_score_symmetric 0%Z Z.add Z.mul
           (T2 {| ncols := 2; rows := [[1; 2]; [3; 4]]%Z |}) (T1 [5; 6]%Z)
           {| ncols := 1; rows := [[17]; [39]]%Z |}).
  - intros x y. apply Z.mul_comm.
  - repeat constructor.
  - repeat constructor.
  - reflexivity.
Defined.
End DotScoreFactsWitnesses.
